(** * twitter_ml: the classifier driver [build_classifiers.py]

    The development embeds the command-line driver
    [twitter_ml/classify/build_classifiers.py] as a trace-producing program
    and states the properties of the voting ensemble, the classifier
    adapters and the feature space it drives.

    The driver is translated from its source.  The classes it imports
    ([Sentiment], [MovieReviews], the voting classifier and its
    sub-classifiers) live in other modules of the repository; where a
    property is about them they are modelled from the specification, and
    every such definition says so in its doc comment. *)

From Stdlib Require Import QArith Qround.
From stdpp Require Import base list strings sorting.

Local Open Scope nat_scope.

(** ** Data model *)

(** A feature vector: one boolean per vocabulary index. *)
Definition FeatureVector := list bool.

(** The sentiment categories. *)
Inductive Label := positive | negative.

#[global] Instance Label_eq_dec : EqDecision Label.
Proof. solve_decision. Defined.

(** The error kinds of the specification, and [ValueError] for the
    exception matplotlib raises on an empty subplot grid. *)
Inductive Error :=
  | ConfigError
  | NotTrainedError
  | EmptyEnsembleError
  | TrainingFailure
  | ValueError.

#[global] Instance Error_eq_dec : EqDecision Error.
Proof. solve_decision. Defined.

(** A call either raises or returns. *)
Definition Result (A : Type) : Type := Error + A.

#[global] Instance Result_eq_dec {A} `{EqDecision A} : EqDecision (Result A).
Proof. unfold Result. apply _. Defined.

Definition result_bind {A B} (f : A → Result B) (r : Result A) : Result B :=
  match r with
  | inl e => inl e
  | inr a => f a
  end.

#[global] Instance Result_ret : MRet Result := λ A a, inr a.
#[global] Instance Result_bind : MBind Result := λ A B, result_bind.

(** [mapM] for [Result]: the first failure wins, as a Python loop that
    lets the first exception escape. *)
Fixpoint result_mapM {A B} (f : A → Result B) (l : list A) : Result (list B) :=
  match l with
  | [] => inr []
  | a :: l' =>
      match f a with
      | inl e => inl e
      | inr b =>
          match result_mapM f l' with
          | inl e => inl e
          | inr bs => inr (b :: bs)
          end
      end
  end.

(** ** ClassifierAdapter *)

Module ClassifierAdapter.

(** Modelled from the spec: the variants of ClassifierAdapter, one per
    underlying learning algorithm (section 4.2: a Bayesian model, a
    margin-based model, a tree-based model).  The class itself is not
    part of the driver's module. *)
Inductive AlgorithmKind := Bayesian | MarginBased | TreeBased.

(** Modelled from the spec: a fitted model answers a label for every
    feature vector; the per-algorithm parameters are opaque to the
    ensemble. *)
Definition Model := FeatureVector → Label.

(** Modelled from the spec: the parameters of one configured entry, as
    the key-value pairs of the configuration resource (section 6). *)
Definition Parameters := list (string * string).

(** Modelled from the spec: a SampleSet is an ordered sequence of
    (FeatureVector, Label) samples (section 3). *)
Definition SampleSet := list (FeatureVector * Label).

(** Modelled from the spec: the underlying algorithms are pre-existing
    ones; [Fit] is the capability of fitting one of them. *)
Definition Fit := AlgorithmKind → Parameters → SampleSet → Result Model.

(** Modelled from the spec: an adapter owns its parameters and one
    trained or untrained underlying model (section 3). *)
Record t := mk {
  kind : AlgorithmKind;
  parameters : Parameters;
  fitted : option Model;
}.

(** Modelled from the spec: adapters are created untrained. *)
Definition create (k : AlgorithmKind) (p : Parameters) : t :=
  {| kind := k; parameters := p; fitted := None |}.


(** Modelled from the spec: [train] replaces the previous fit. *)
Definition train (fit : Fit) (samples : SampleSet) (a : t) : Result t :=
  m ← fit (kind a) (parameters a) samples;
  mret {| kind := kind a; parameters := parameters a; fitted := Some m |}.

(** Modelled from the spec: [predict] on an untrained adapter fails with
    NotTrainedError. *)
Definition predict (a : t) (v : FeatureVector) : Result Label :=
  match fitted a with
  | None => inl NotTrainedError
  | Some m => inr (m v)
  end.

(** Modelled from the spec: [predict_batch] answers one label per input,
    in input order. *)
Definition predict_batch (a : t) (X : list FeatureVector)
  : Result (list Label) :=
  result_mapM (predict a) X.

End ClassifierAdapter.

(** ** VotingEnsemble *)

Module VotingEnsemble.

(** The plurality rule of section 4.3, over the votes in declaration
    order. *)
Section Plurality.
Context {L : Type} `{EqDecision L}.

(** Modelled from the spec: the number of sub-classifiers that voted for
    a label. *)
Definition count_votes (l : L) (votes : list L) : nat :=
  length (filter (λ v, v = l) votes).

(** Modelled from the spec: scan the votes in declaration order and
    replace the current winner only by a label with strictly more
    votes, so that the first-declared of several tied labels wins. *)
Fixpoint plurality_from (all rest : list L) (best : L) : L :=
  match rest with
  | [] => best
  | v :: rest' =>
      if count_votes best all <? count_votes v all
      then plurality_from all rest' v
      else plurality_from all rest' best
  end.

(** Modelled from the spec: an ensemble with zero votes fails with
    EmptyEnsembleError. *)
Definition plurality (votes : list L) : Result L :=
  match votes with
  | [] => inl EmptyEnsembleError
  | v :: rest => inr (plurality_from votes rest v)
  end.

(** Modelled from the spec: the rule in the specification's words, as a
    relation.  [r] is the vote of sub-classifier [k], no label has more
    votes, and no label with as many votes is voted for by a
    sub-classifier declared before [k]. *)
Definition first_maximum (votes : list L) (r : L) (k : nat) : Prop :=
  votes !! k = Some r
  ∧ (∀ l, count_votes l votes ≤ count_votes r votes)
  ∧ (∀ j l, votes !! j = Some l →
            count_votes l votes = count_votes r votes → k ≤ j).
End Plurality.

(** Modelled from the spec: the ensemble owns the mapping from
    sub-classifier name to adapter.  A Python [dict] keeps insertion
    order, so the mapping is an association list in declaration
    order. *)
Record t := mk {
  sub_classifiers : list (string * ClassifierAdapter.t);
}.

(** [sub_classifiers.items()]: the pairs of the mapping in insertion
    order. *)
Definition items (e : t) : list (string * ClassifierAdapter.t) :=
  sub_classifiers e.

(** Modelled from the spec: the number of sub-classifiers of the
    ensemble whose single-vector prediction for [x] is the label [l]. *)
Definition votes_for (e : t) (x : FeatureVector) (l : Label) : nat :=
  length (filter (λ na, ClassifierAdapter.predict na.2 x = inr l)
                 (sub_classifiers e)).

(** Modelled from the spec: poll every sub-classifier in declaration
    order. *)
Definition poll (e : t) (v : FeatureVector) : Result (list Label) :=
  result_mapM (λ na, ClassifierAdapter.predict na.2 v) (sub_classifiers e).

(** Modelled from the spec: [predict] aggregates the single-vector
    predictions by plurality vote. *)
Definition predict (e : t) (v : FeatureVector) : Result Label :=
  votes ← poll e v; plurality votes.

(** Modelled from the spec: [predict_batch] is [predict] per input. *)
Definition predict_batch (e : t) (X : list FeatureVector)
  : Result (list Label) :=
  result_mapM (predict e) X.

(** Modelled from the spec: [train] calls every sub-classifier's
    [train] with the same samples and fails as a whole.  *)
Definition train (fit : ClassifierAdapter.Fit)
    (samples : ClassifierAdapter.SampleSet) (e : t) : Result t :=
  subs ← result_mapM
            (λ na, a ← ClassifierAdapter.train fit samples na.2;
                   mret (na.1, a))
            (sub_classifiers e);
  mret {| sub_classifiers := subs |}.

End VotingEnsemble.

(** ** The train/predict contract *)

Module Contract.

(** Modelled from the spec: the variants of ClassifierAdapter.  Each
    algorithm is one (section 4.2), and the voting ensemble "behaves as
    just another ClassifierAdapter variant" (section 4.3). *)
Inductive Variant :=
  | Algorithm (a : ClassifierAdapter.t)
  | Ensemble (e : VotingEnsemble.t).

(** Modelled from the spec: [predict] of a variant. *)
Definition predict (c : Variant) (v : FeatureVector) : Result Label :=
  match c with
  | Algorithm a => ClassifierAdapter.predict a v
  | Ensemble e => VotingEnsemble.predict e v
  end.

(** Modelled from the spec: [train] of a variant. *)
Definition train (fit : ClassifierAdapter.Fit)
    (samples : ClassifierAdapter.SampleSet) (c : Variant) : Result Variant :=
  match c with
  | Algorithm a => a' ← ClassifierAdapter.train fit samples a;
                   mret (Algorithm a')
  | Ensemble e => e' ← VotingEnsemble.train fit samples e;
                  mret (Ensemble e')
  end.








End Contract.

(** ** FeatureSpace *)

Module FeatureSpace.

(** Modelled from the spec: a document is its token sequence; the
    FeatureSpace class is not part of the driver's module. *)
Definition Document := list string.

(** Modelled from the spec: all tokens of the corpus, in reading
    order. *)
Definition corpus_words (corpus : list Document) : list string :=
  concat corpus.

(** Modelled from the spec: the corpus-wide occurrence count of a
    word. *)
Definition count (w : string) (ws : list string) : nat :=
  length (filter (λ x, x = w) ws).

(** Modelled from the spec: the position at which a word is first
    seen. *)
Fixpoint first_pos (w : string) (ws : list string) : nat :=
  match ws with
  | [] => 0
  | x :: ws' => if decide (x = w) then 0 else S (first_pos w ws')
  end.

(** Modelled from the spec: the distinct words in first-seen order. *)
Fixpoint distinct (ws : list string) : list string :=
  match ws with
  | [] => []
  | w :: ws' => w :: filter (λ x, x ≠ w) (distinct ws')
  end.

(** Modelled from the spec: insertion into a ranking by decreasing
    count; a word goes before the words of the same count that were
    first seen after it. *)
Fixpoint insert_ranked (ws : list string) (w : string)
    (ranked : list string) : list string :=
  match ranked with
  | [] => [w]
  | x :: ranked' =>
      if count x ws <=? count w ws
      then w :: x :: ranked'
      else x :: insert_ranked ws w ranked'
  end.

(** Modelled from the spec: the ranking of a list of words given in
    first-seen order. *)
Definition rank (ws : list string) (l : list string) : list string :=
  foldr (insert_ranked ws) [] l.

(** Modelled from the spec: the vocabulary is the top-N words by
    corpus-wide frequency, ties in first-seen order; N larger than the
    number of distinct words yields all of them. *)
Definition build (corpus : list Document) (N : nat) : list string :=
  let ws := corpus_words corpus in
  take N (rank ws (distinct ws)).

(** Modelled from the spec: the index a vocabulary assigns to a word. *)
Definition index_of (w : string) (vocabulary : list string) : option nat :=
  fst <$> list_find (λ x, x = w) vocabulary.

(** Modelled from the spec: binary presence vector of a document. *)
Definition extract (vocabulary : list string) (doc : Document)
  : FeatureVector :=
  (λ w, bool_decide (w ∈ doc)) <$> vocabulary.

(** Modelled from the spec: [a] is first seen before [b]. *)
Definition seen_before (ws : list string) (a b : string) : Prop :=
  first_pos a ws < first_pos b ws.

(** Modelled from the spec: the order of the vocabulary in the
    specification's words, as a relation.  [a] ranks before [b] when it
    occurs more often, or as often and was seen first. *)
Definition outranks (ws : list string) (a b : string) : Prop :=
  count b ws < count a ws
  ∨ (count a ws = count b ws ∧ first_pos a ws < first_pos b ws).

(** Modelled from the spec: the vocabulary in the specification's
    words, as a relation.  [v] is a vocabulary of the corpus for N when
    it is the first N entries of a ranking of the distinct corpus words
    by [outranks]. *)
Definition IsVocabulary (corpus : list Document) (N : nat)
    (v : list string) : Prop :=
  ∃ ranking,
    ranking ≡ₚ distinct (corpus_words corpus)
    ∧ StronglySorted (outranks (corpus_words corpus)) ranking
    ∧ v = take N ranking.

End FeatureSpace.

(** ** The driver *)

Module Driver.

(** [argparse] result: the four [store_true] flags. *)
Record Args := mkArgs {
  features : bool;
  report : bool;
  graphs : bool;
  learning : bool;
}.

(** The [Any] of [List[Tuple[str, Any]]]: the voting classifier or one
    of its sub-classifiers. *)
Inductive Classifier :=
  | Voting (e : VotingEnsemble.t)
  | Single (a : ClassifierAdapter.t).

(** Modelled from the spec: [clf.predict(X)] on a matrix of samples is
    the batch prediction of the classifier behind [clf]; the classes
    that implement it are not part of the driver's module. *)
Definition classifier_predict (clf : Classifier) (X : list FeatureVector)
  : Result (list Label) :=
  match clf with
  | Voting e => VotingEnsemble.predict_batch e X
  | Single a => ClassifierAdapter.predict_batch a X
  end.

(** Modelled from the spec: the object built by [Sentiment(config)];
    the driver reads its [voting_classifier]. *)
Record Sentiment := mkSentiment {
  voting_classifier : VotingEnsemble.t;
}.

(** What the imported collaborators answer in one run.  Their classes
    are not part of the driver's module, so their answers are parameters
    of the run. *)
Record World := mkWorld {
  (** [MovieReviews(3000).features] *)
  data_features : list string;
  (** [data.get_samples()] *)
  get_samples : list FeatureVector * list Label;
  (** [Sentiment(config_file)], which may raise *)
  new_sentiment : string → Result Sentiment;
  (** [sentiment.init_classifiers(X, y)], which may raise *)
  init_classifiers :
    Sentiment → list FeatureVector → list Label → Result unit;
  (** [roc_curve(y, y_pred)] and [auc(fpr, tpr)], which may raise *)
  roc_curve : list Label → list Label → Result unit;
  (** [learning_curve(clf, X, y, ...)], which may raise *)
  learning_curve :
    Classifier → list FeatureVector → list Label → Result unit;
}.

(** A subplot axis, named by its grid position. *)
Definition Axes := (nat * nat)%type.

(** The calls the driver makes, in order. *)
Inductive Event :=
  | NewMovieReviews (n : nat)
  | PrintLine (line : string)
  | PrintFeature (i : nat) (feat : string)
  | NewSentiment (config_file : string)
  | Log (message : string)
  | GetSamples
  (* entry of [do_report], [do_graphs], [do_learning_curve] *)
  | CallReport (classifiers : list (string * Classifier))
      (X : list FeatureVector) (y : list Label)
  | CallGraphs (classifiers : list (string * Classifier))
      (X : list FeatureVector) (y : list Label)
  | CallLearningCurve (classifiers : list (string * Classifier))
      (X : list FeatureVector) (y : list Label)
  | LogSamples (len_X len_y : nat)
  | LogCategories (y : list Label)
  | LogPlotDimensions (rows cols : nat)
  | Subplots (rows cols : nat)
  | Predict (label : string) (clf : Classifier) (X : list FeatureVector)
  | DumpMetrics (label : string) (y y_pred : list Label)
  | PlotConfusionMatrix (label : string) (ax : Axes)
      (y y_pred : list Label)
  | PlotRoc (label : string) (y y_pred : list Label)
  | PltShow
  | LearningCurve (label : string) (clf : Classifier)
      (X : list FeatureVector) (y : list Label)
  | PlotLearningCurve (label : string)
  | InitClassifiers (X_train : list FeatureVector) (y_train : list Label).

(** How a run stops early: [sys.exit] or an escaping exception. *)
Inductive Stop :=
  | SysExit (code : nat)
  | Raised (e : Error).

(** The driver's effects: the trace of calls so far and either a stop
    or a value. *)
Definition Run (A : Type) : Type := (list Event * (Stop + A))%type.

(** A step that makes no call. *)
Definition run_ret {A} (a : A) : Run A := ([], inr a).

(** Sequencing: a stop skips the rest of the program. *)
Definition run_bind {A B} (k : A → Run B) (m : Run A) : Run B :=
  match m with
  | (t, inl s) => (t, inl s)
  | (t, inr a) => match k a with (t', r) => (t ++ t', r) end
  end.

#[global] Instance Run_ret : MRet Run := λ A, run_ret.
#[global] Instance Run_bind : MBind Run := λ A B, run_bind.

(** One call, recorded in the trace. *)
Definition emit (e : Event) : Run unit := ([e], inr ()).

(** The answer of a collaborator: a raised error stops the run. *)
Definition lift {A} (r : Result A) : Run A :=
  match r with
  | inl e => ([], inl (Raised e))
  | inr a => ([], inr a)
  end.

(** [sys.exit(code)] *)
Definition sys_exit (code : nat) : Run unit := ([], inl (SysExit code)).

(** A [for] loop over a list. *)
Fixpoint for_each {A} (body : A → Run unit) (l : list A) : Run unit :=
  match l with
  | [] => mret ()
  | a :: l' => body a;; for_each body l'
  end.

(** The calls of a run, and how it ended. *)
Definition trace {A} (r : Run A) : list Event := r.1.
Definition outcome {A} (r : Run A) : Stop + A := r.2.

(** [math.ceil(n / d)]: true division, then the ceiling.  The quotient
    of a list length by 4 is exact in binary floating point, so the
    rational quotient is what Python computes. *)
Definition ceil_div (n d : nat) : nat :=
  Z.to_nat (Qceiling (inject_Z (Z.of_nat n) / inject_Z (Z.of_nat d))).

(** The axes of [rows] grid rows starting at row [first], row by row. *)
Definition grid_rows (first rows cols : nat) : list (list Axes) :=
  (λ r, (λ c, (r, c)) <$> seq 0 cols) <$> seq first rows.

(** The array of axes of a [rows] by [cols] figure. *)
Definition axes_grid (rows cols : nat) : list (list Axes) :=
  grid_rows 0 rows cols.

(** [fig, axs = plt.subplots(rows, cols)]; matplotlib raises
    [ValueError] when a dimension is not positive. *)
Definition subplots (rows cols : nat) : Run (list (list Axes)) :=
  emit (Subplots rows cols);;
  if (rows =? 0) || (cols =? 0)
  then lift (inl ValueError)
  else mret (axes_grid rows cols).

(** [axs.flat] *)
Definition flat (axs : list (list Axes)) : list Axes := concat axs.

(** [y_pred = clf.predict(X)] *)
Definition call_predict (label : string) (clf : Classifier)
    (X : list FeatureVector) : Run (list Label) :=
  emit (Predict label clf X);;
  lift (classifier_predict clf X).

(** [subplots_cols = 4] *)
Definition subplots_cols : nat := 4.

(** The pairs [list(zip(axs.flat, classifiers))] of [do_graphs]. *)
Definition graph_data (axs : list (list Axes))
    (classifiers : list (string * Classifier))
  : list (Axes * (string * Classifier)) :=
  zip (flat axs) classifiers.

(** [do_graphs]: the confusion matrices in a grid, then the ROC
    curves.  The first event records the call and its arguments.  In the
    second loop [roc_curve] and [auc] may raise, as they do on an empty
    test set; the curve is plotted only when they return. *)
Definition do_graphs (w : World) (classifiers : list (string * Classifier))
    (X : list FeatureVector) (y : list Label) : Run unit :=
  emit (CallGraphs classifiers X y);;
  let subplots_rows := ceil_div (length classifiers) subplots_cols in
  emit (LogPlotDimensions subplots_rows subplots_cols);;
  axs ← subplots subplots_rows subplots_cols;
  for_each
    (λ p, y_pred ← call_predict p.2.1 p.2.2 X;
          emit (PlotConfusionMatrix p.2.1 p.1 y y_pred))
    (graph_data axs classifiers);;
  emit PltShow;;
  for_each
    (λ p, y_pred ← call_predict p.1 p.2 X;
          lift (roc_curve w y y_pred);;
          emit (PlotRoc p.1 y y_pred))
    classifiers;;
  emit PltShow.

(** [_dump_metrics]: the summary line, the prediction, the metrics. *)
Definition _dump_metrics (label : string) (clf : Classifier)
    (X : list FeatureVector) (y : list Label) : Run unit :=
  emit (PrintLine ("SUMMARY FOR CLASSIFIER: " +:+ label));;
  y_pred ← call_predict label clf X;
  emit (DumpMetrics label y y_pred).

(** [do_report]: the sample counts, then the metrics of every
    classifier.  The first event records the call and its arguments. *)
Definition do_report (classifiers : list (string * Classifier))
    (X : list FeatureVector) (y : list Label) : Run unit :=
  emit (CallReport classifiers X y);;
  emit (LogSamples (length X) (length y));;
  emit (LogCategories y);;
  for_each (λ p, _dump_metrics p.1 p.2 X y) classifiers.

(** [do_learning_curve]: one [learning_curve] per classifier on one
    figure.  The first event records the call and its arguments.
    [learning_curve] may raise, as it does when a class has fewer
    members than folds; the curve is plotted only when it returns. *)
Definition do_learning_curve (w : World)
    (classifiers : list (string * Classifier))
    (X : list FeatureVector) (y : list Label) : Run unit :=
  emit (CallLearningCurve classifiers X y);;
  emit (Subplots 1 1);;
  for_each
    (λ p, emit (LearningCurve p.1 p.2 X y);;
          lift (learning_curve w p.2 X y);;
          emit (PlotLearningCurve p.1))
    classifiers;;
  emit PltShow.

(** [list(sentiment.voting_classifier.sub_classifiers.items())] *)
Definition sub_classifier_items (s : Sentiment)
  : list (string * Classifier) :=
  (λ na, (na.1, Single na.2)) <$> VotingEnsemble.items (voting_classifier s).

(** [[("voting", sentiment.voting_classifier)] + list(...items())] *)
Definition all_classifiers (s : Sentiment) : list (string * Classifier) :=
  [("voting"%string, Voting (voting_classifier s))]
    ++ sub_classifier_items s.

(** The bound of the slices of [__main__]. *)
Definition train_size : nat := 1900.

(** The slices [l[:1900]] and [l[1900:]]. *)
Definition train_part {A} (l : list A) : list A := take train_size l.
Definition test_part {A} (l : list A) : list A := drop train_size l.

(** The [__main__] block, from the flags that [parser.parse_args()]
    returned. *)
Definition main (w : World) (args : Args) : Run unit :=
  emit (NewMovieReviews 3000);;
  (if features args then
     emit (PrintLine "Features:");;
     for_each (λ p, emit (PrintFeature p.1 p.2))
              (imap (λ i feat, (i, feat)) (data_features w));;
     sys_exit 0
   else mret ());;
  emit (NewSentiment "voting.yaml");;
  sentiment ← lift (new_sentiment w "voting.yaml");
  emit (Log "Loading feature sets and training data...");;
  emit GetSamples;;
  let X := (get_samples w).1 in
  let y := (get_samples w).2 in
  let X_train := train_part X in
  let y_train := train_part y in
  let X_test := test_part X in
  let y_test := test_part y in
  (if report args then
     do_report (all_classifiers sentiment) X_test y_test;;
     sys_exit 0
   else mret ());;
  (if graphs args then
     do_graphs w (all_classifiers sentiment) X_test y_test;;
     sys_exit 0
   else mret ());;
  (if learning args then
     do_learning_curve w (sub_classifier_items sentiment) X y;;
     sys_exit 0
   else mret ());;
  emit (Log "Creating classifiers...");;
  emit (InitClassifiers X_train y_train);;
  lift (init_classifiers w sentiment X_train y_train);;
  emit (Log "Done.").

(** The calls every run makes, once the ensemble is built, before
    it looks at the command flags. *)
Definition prologue : list Event :=
  [NewMovieReviews 3000; NewSentiment "voting.yaml";
   Log "Loading feature sets and training data..."; GetSamples].

(** The outcome of [command(...); sys.exit(0)]. *)
Definition then_exit (r : Stop + unit) : Stop + unit :=
  match r with
  | inl s => inl s
  | inr _ => inl (SysExit 0)
  end.

(** Classes of events. *)
Definition is_predict (e : Event) : bool :=
  match e with Predict _ _ _ => true | _ => false end.

(** Training calls: [init_classifiers], and [learning_curve], which
    fits copies of the classifier it is given. *)
Definition is_training (e : Event) : bool :=
  match e with
  | InitClassifiers _ _ | LearningCurve _ _ _ _ => true
  | _ => false
  end.

(** The call [sentiment.init_classifiers(X_train, y_train)]. *)
Definition is_init (e : Event) : bool :=
  match e with InitClassifiers _ _ => true | _ => false end.

(** Entries of the three command functions. *)
Definition is_call (e : Event) : bool :=
  match e with
  | CallReport _ _ _ | CallGraphs _ _ _ | CallLearningCurve _ _ _ => true
  | _ => false
  end.

(** An event that neither trains nor enters a command. *)
Definition scoring (e : Event) : Prop :=
  is_training e = false ∧ is_call e = false.

(** An event that neither predicts nor enters a command. *)
Definition fitting (e : Event) : Prop :=
  is_predict e = false ∧ is_call e = false.

(** The temporal property "every [predict] call of the run comes after
    a training call of the same run". *)
Definition trained_before_predict (t : list Event) : Prop :=
  ∀ i e, t !! i = Some e → is_predict e = true →
    ∃ j e', j < i ∧ t !! j = Some e' ∧ is_training e' = true.

End Driver.

(** ** Sample inputs *)

Module Samples.

Import ClassifierAdapter.

(** A fitted model that answers the same label for every input. *)
Definition constant_model (l : Label) : Model := λ _, l.

Definition trained (k : AlgorithmKind) (l : Label) : ClassifierAdapter.t :=
  {| kind := k; parameters := []; fitted := Some (constant_model l) |}.

(** Three sub-classifiers voting {A, A, B}, with A = [positive]. *)
Definition ensemble_AAB : VotingEnsemble.t :=
  VotingEnsemble.mk
    [("X"%string, trained Bayesian positive);
     ("Y"%string, trained MarginBased positive);
     ("Z"%string, trained TreeBased negative)].

(** Two sub-classifiers declared in order [X, Y] voting {A, B}. *)
Definition ensemble_AB : VotingEnsemble.t :=
  VotingEnsemble.mk
    [("X"%string, trained Bayesian positive);
     ("Y"%string, trained MarginBased negative)].

(** The same declaration, not trained. *)
Definition ensemble_untrained : VotingEnsemble.t :=
  VotingEnsemble.mk
    [("X"%string, create Bayesian []);
     ("Y"%string, create MarginBased [])].


(** Five samples and a world whose [Sentiment] constructor succeeds. *)
Definition five_samples : list FeatureVector * list Label :=
  ([[true]; [false]; [true]; [true]; [false]],
   [positive; negative; positive; positive; negative]).

Definition world_ok (e : VotingEnsemble.t) : Driver.World :=
  {| Driver.data_features := ["good"; "bad"]%string;
     Driver.get_samples := five_samples;
     Driver.new_sentiment := λ _, inr (Driver.mkSentiment e);
     Driver.init_classifiers := λ _ _ _, inr ();
     Driver.roc_curve := λ _ _, inr ();
     Driver.learning_curve := λ _ _ _, inr () |}.

(** A world whose configuration names an unknown algorithm kind. *)
Definition world_bad_config : Driver.World :=
  {| Driver.data_features := ["good"; "bad"]%string;
     Driver.get_samples := five_samples;
     Driver.new_sentiment := λ _, inl ConfigError;
     Driver.init_classifiers := λ _ _ _, inr ();
     Driver.roc_curve := λ _ _, inr ();
     Driver.learning_curve := λ _ _ _, inr () |}.

(** 1902 parallel samples: 1900 of one kind, then two of another. *)
Definition many_X : list FeatureVector :=
  replicate 1900 [true] ++ [[false]; [false]].
Definition many_y : list Label :=
  replicate 1900 positive ++ [negative; negative].

(** Five classifiers, as [--graphs] builds them for four
    sub-classifiers. *)
Definition five_classifiers : list (string * Driver.Classifier) :=
  [("voting"%string, Driver.Voting ensemble_AB);
   ("a"%string, Driver.Single (trained Bayesian positive));
   ("b"%string, Driver.Single (trained MarginBased positive));
   ("c"%string, Driver.Single (trained TreeBased negative));
   ("d"%string, Driver.Single (trained Bayesian negative))].

(** A world with the 1902 samples. *)
Definition world_many (e : VotingEnsemble.t) : Driver.World :=
  {| Driver.data_features := ["good"; "bad"]%string;
     Driver.get_samples := (many_X, many_y);
     Driver.new_sentiment := λ _, inr (Driver.mkSentiment e);
     Driver.init_classifiers := λ _ _ _, inr ();
     Driver.roc_curve := λ _ _, inr ();
     Driver.learning_curve := λ _ _ _, inr () |}.

(** A world with five samples, on which [learning_curve] raises: five
    samples do not fill the five folds of each class. *)
Definition world_learning_fails (e : VotingEnsemble.t) : Driver.World :=
  {| Driver.data_features := ["good"; "bad"]%string;
     Driver.get_samples := five_samples;
     Driver.new_sentiment := λ _, inr (Driver.mkSentiment e);
     Driver.init_classifiers := λ _ _ _, inr ();
     Driver.roc_curve := λ _ _, inl ValueError;
     Driver.learning_curve := λ _ _ _, inl ValueError |}.

(** A corpus of four documents. *)
Definition corpus : list FeatureSpace.Document :=
  [["good"; "bad"; "good"]; ["great"; "bad"];
   ["boring"; "good"]; ["great"; "bad"]]%string.

(** A world in which building the classifiers raises. *)
Definition world_training_fails : Driver.World :=
  {| Driver.data_features := ["good"; "bad"]%string;
     Driver.get_samples := five_samples;
     Driver.new_sentiment := λ _, inr (Driver.mkSentiment ensemble_untrained);
     Driver.init_classifiers := λ _ _ _, inl TrainingFailure;
     Driver.roc_curve := λ _ _, inr ();
     Driver.learning_curve := λ _ _ _, inr () |}.

Definition args_none : Driver.Args := Driver.mkArgs false false false false.
Definition args_report : Driver.Args := Driver.mkArgs false true false false.
Definition args_graphs : Driver.Args := Driver.mkArgs false false true false.
Definition args_learning : Driver.Args := Driver.mkArgs false false false true.

End Samples.

(** ** Reading a trace *)

Module Observe.

Import Driver.

(** The label of a [clf.predict(X)] call. *)
Definition predict_label (e : Event) : option string :=
  match e with
  | Predict label _ _ => Some label
  | _ => None
  end.

(** The labels of the classifiers on which [predict] was called, in call
    order. *)
Definition predicted (t : list Event) : list string :=
  omap predict_label t.

(** The entries of the command functions in a trace. *)
Definition commands (t : list Event) : list Event :=
  filter (λ e, is_call e = true) t.

(** [clf.predict(X)] returns for the classifier of a (label, clf) pair. *)
Definition predict_returns (X : list FeatureVector)
    (p : string * Classifier) : Prop :=
  ∃ y_pred, classifier_predict p.2 X = inr y_pred.

(** The confusion matrices drawn, as (label, axis) in drawing order. *)
Definition confusion_plot (e : Event) : option (string * Axes) :=
  match e with
  | PlotConfusionMatrix label ax _ _ => Some (label, ax)
  | _ => None
  end.

Definition confusion_plots (t : list Event) : list (string * Axes) :=
  omap confusion_plot t.

(** The metric summaries printed, by label, in printing order. *)
Definition metrics_label (e : Event) : option string :=
  match e with
  | DumpMetrics label _ _ => Some label
  | _ => None
  end.

Definition dumped (t : list Event) : list string :=
  omap metrics_label t.

(** The features listed by [--features], as (index, feature) in
    printing order. *)
Definition feature_line (e : Event) : option (nat * string) :=
  match e with
  | PrintFeature i feat => Some (i, feat)
  | _ => None
  end.

Definition listed (t : list Event) : list (nat * string) :=
  omap feature_line t.

(** The [learning_curve] calls, as (label, classifier, X, y) in call
    order. *)
Definition learning_call (e : Event)
  : option (string * Classifier * list FeatureVector * list Label) :=
  match e with
  | LearningCurve label clf X y => Some (label, clf, X, y)
  | _ => None
  end.

Definition learned (t : list Event)
  : list (string * Classifier * list FeatureVector * list Label) :=
  omap learning_call t.

(** [roc_curve] and [auc] return on what the classifier of a
    (label, clf) pair predicts for [X]. *)
Definition roc_returns (w : World) (X : list FeatureVector) (y : list Label)
    (p : string * Classifier) : Prop :=
  ∀ y_pred, classifier_predict p.2 X = inr y_pred →
            roc_curve w y y_pred = inr ().

(** [learning_curve] returns for the classifier of a (label, clf)
    pair. *)
Definition learning_returns (w : World) (X : list FeatureVector)
    (y : list Label) (p : string * Classifier) : Prop :=
  learning_curve w p.2 X y = inr ().

(** The body of the first loop of [do_graphs], over the zipped pairs. *)
Definition confusion_pass (X : list FeatureVector) (y : list Label)
    (pairs : list (Axes * (string * Classifier))) : Run unit :=
  for_each
    (λ p, y_pred ← call_predict p.2.1 p.2.2 X;
          emit (PlotConfusionMatrix p.2.1 p.1 y y_pred))
    pairs.

(** The body of the second loop of [do_graphs]. *)
Definition roc_pass (w : World) (X : list FeatureVector) (y : list Label)
    (classifiers : list (string * Classifier)) : Run unit :=
  for_each
    (λ p, y_pred ← call_predict p.1 p.2 X;
          lift (roc_curve w y y_pred);;
          emit (PlotRoc p.1 y y_pred))
    classifiers.

(** A run that does not stop through [sys.exit]. *)
Definition no_sys_exit {A} (m : Run A) : Prop :=
  ∀ code, outcome m ≠ inl (SysExit code).

End Observe.

(** * Properties *)

(** ** Plurality voting *)

Section PluralityFacts.
Context {L : Type} `{EqDecision L}.
Implicit Types (votes all pre rest : list L) (l best : L).

Import VotingEnsemble.

Lemma count_votes_cons l v votes :
  count_votes l (v :: votes)
  = (if decide (v = l) then 1 else 0) + count_votes l votes.
Proof.
  unfold count_votes. rewrite filter_cons.
  destruct (decide (v = l)); reflexivity.
Qed.

Lemma count_votes_pos_lookup l votes :
  0 < count_votes l votes → ∃ j, votes !! j = Some l.
Proof.
  induction votes as [|v votes IH]; intros Hpos.
  - unfold count_votes in Hpos. simpl in Hpos. lia.
  - rewrite count_votes_cons in Hpos.
    destruct (decide (v = l)) as [->|Hne].
    + exists 0. reflexivity.
    + destruct IH as [j Hj]; [lia|]. exists (S j). exact Hj.
Qed.

Lemma lookup_count_votes_pos l votes j :
  votes !! j = Some l → 0 < count_votes l votes.
Proof.
  revert j. induction votes as [|v votes IH]; intros j Hj.
  - rewrite lookup_nil in Hj. discriminate.
  - rewrite count_votes_cons. destruct j as [|j]; simpl in Hj.
    + injection Hj as ->. rewrite decide_True by reflexivity. lia.
    + specialize (IH _ Hj). lia.
Qed.

(** The scan keeps the first maximum of the votes read so far. *)
Lemma plurality_from_scan all rest : ∀ pre best i,
  all = pre ++ rest →
  pre !! i = Some best →
  (∀ j l, pre !! j = Some l → count_votes l all ≤ count_votes best all) →
  (∀ j l, pre !! j = Some l →
          count_votes l all = count_votes best all → i ≤ j) →
  ∃ k, first_maximum all (plurality_from all rest best) k.
Proof.
  induction rest as [|v rest IH]; intros pre best i Hall Hi Hmax Hfirst.
  - rewrite app_nil_r in Hall. subst pre. simpl. exists i.
    split; [exact Hi|]. split; [|exact Hfirst].
    intros l. destruct (decide (0 < count_votes l all)) as [Hpos|Hz].
    + destruct (count_votes_pos_lookup _ _ Hpos) as [j Hj]. eauto.
    + lia.
  - simpl. assert (Hall' : all = (pre ++ [v]) ++ rest)
      by (rewrite <- app_assoc; exact Hall).
    assert (Hlt : i < length pre) by (eapply lookup_lt_Some; eauto).
    destruct (count_votes best all <? count_votes v all) eqn:Hcmp.
    + apply Nat.ltb_lt in Hcmp.
      apply (IH (pre ++ [v]) v (length pre) Hall').
      * rewrite lookup_app_r by lia. rewrite Nat.sub_diag. reflexivity.
      * intros j l Hj. apply lookup_snoc_Some in Hj as [[_ Hj]|[_ <-]].
        -- specialize (Hmax _ _ Hj). lia.
        -- lia.
      * intros j l Hj Heq. apply lookup_snoc_Some in Hj as [[_ Hj]|[-> _]].
        -- specialize (Hmax _ _ Hj). lia.
        -- lia.
    + apply Nat.ltb_ge in Hcmp.
      apply (IH (pre ++ [v]) best i Hall').
      * rewrite lookup_app_l by lia. exact Hi.
      * intros j l Hj. apply lookup_snoc_Some in Hj as [[_ Hj]|[_ <-]].
        -- eauto.
        -- exact Hcmp.
      * intros j l Hj Heq. apply lookup_snoc_Some in Hj as [[_ Hj]|[-> _]].
        -- eauto.
        -- lia.
Qed.

(** A non-empty list of votes has a winner, and it is the first
    maximum. *)
Lemma plurality_first_maximum votes :
  votes ≠ [] →
  ∃ r k, plurality votes = inr r ∧ first_maximum votes r k.
Proof.
  destruct votes as [|v rest]; [congruence|]. intros _.
  destruct (plurality_from_scan (v :: rest) rest [v] v 0) as [k Hk].
  - reflexivity.
  - reflexivity.
  - intros [|j] l Hj; simpl in Hj; [|rewrite lookup_nil in Hj; discriminate].
    injection Hj as ->. lia.
  - intros j l _ _. lia.
  - exists (plurality_from (v :: rest) rest v), k. split; [reflexivity|exact Hk].
Qed.

(** A label with strictly more votes than every other label wins. *)
Lemma plurality_strict_winner votes l :
  votes ≠ [] →
  (∀ l', l' ≠ l → count_votes l' votes < count_votes l votes) →
  plurality votes = inr l.
Proof.
  intros Hne Hstrict.
  destruct (plurality_first_maximum votes Hne) as (r & k & -> & _ & Hmax & _).
  destruct (decide (r = l)) as [->|Hrl]; [reflexivity|].
  specialize (Hstrict r Hrl). specialize (Hmax l). lia.
Qed.

Lemma plurality_empty : plurality (@nil L) = inl EmptyEnsembleError.
Proof. reflexivity. Qed.

End PluralityFacts.

(** ** The ensemble's vote *)

Lemma result_mapM_Forall2 {A B} (f : A → Result B) (l : list A) (bs : list B) :
  result_mapM f l = inr bs → Forall2 (λ a b, f a = inr b) l bs.
Proof.
  revert bs. induction l as [|a l IH]; intros bs Hm; simpl in Hm.
  - injection Hm as <-. constructor.
  - destruct (f a) as [e|b] eqn:Hfa; [discriminate|].
    destruct (result_mapM f l) as [e|bs'] eqn:Hrest; [discriminate|].
    injection Hm as <-. constructor; [exact Hfa|]. apply IH. reflexivity.
Qed.

Lemma Forall2_result_mapM {A B} (f : A → Result B) (l : list A) (bs : list B) :
  Forall2 (λ a b, f a = inr b) l bs → result_mapM f l = inr bs.
Proof.
  induction 1 as [|a b l bs Hab _ IH]; [reflexivity|].
  cbn [result_mapM]. rewrite Hab, IH. reflexivity.
Qed.

Lemma all_answer_Forall2 {A B} (f : A → Result B) (l : list A) :
  Forall (λ a, ∃ b, f a = inr b) l →
  ∃ bs, Forall2 (λ a b, f a = inr b) l bs.
Proof.
  induction 1 as [|a l [b Hb] _ [bs IH]].
  - exists []. constructor.
  - exists (b :: bs). constructor; assumption.
Qed.

(** The votes are the sub-classifiers' answers, in declaration order. *)
Lemma poll_votes (e : VotingEnsemble.t) (x : FeatureVector)
    (votes : list Label) :
  VotingEnsemble.poll e x = inr votes →
  Forall2 (λ na l, ClassifierAdapter.predict na.2 x = inr l)
          (VotingEnsemble.sub_classifiers e) votes.
Proof. apply result_mapM_Forall2. Qed.

(** When every sub-classifier answers, the poll is the list of their
    answers: one vote per sub-classifier. *)
Lemma poll_all_answer (e : VotingEnsemble.t) (x : FeatureVector) :
  Forall (λ na, ∃ v, ClassifierAdapter.predict na.2 x = inr v)
         (VotingEnsemble.sub_classifiers e) →
  ∃ votes,
    VotingEnsemble.poll e x = inr votes
    ∧ Forall2 (λ na l, ClassifierAdapter.predict na.2 x = inr l)
              (VotingEnsemble.sub_classifiers e) votes.
Proof.
  intros Hall.
  destruct (all_answer_Forall2
              (λ na, ClassifierAdapter.predict na.2 x) _ Hall) as [votes Hv].
  exists votes. split; [|exact Hv].
  unfold VotingEnsemble.poll. apply Forall2_result_mapM. exact Hv.
Qed.

(** Counting a label among the votes counts the sub-classifiers that
    predict it. *)
Lemma count_votes_sub_classifiers (x : FeatureVector) (l : Label)
    (subs : list (string * ClassifierAdapter.t)) (votes : list Label) :
  Forall2 (λ na v, ClassifierAdapter.predict na.2 x = inr v) subs votes →
  VotingEnsemble.count_votes l votes
  = length (filter (λ na, ClassifierAdapter.predict na.2 x = inr l) subs).
Proof.
  induction 1 as [|na v subs votes Hna _ IH]; [reflexivity|].
  rewrite count_votes_cons, filter_cons, IH.
  destruct (decide (v = l)) as [->|Hne].
  - rewrite decide_True by exact Hna. reflexivity.
  - rewrite decide_False; [reflexivity|].
    rewrite Hna. intros Heq. injection Heq as ->. contradiction.
Qed.

Lemma count_votes_votes_for (e : VotingEnsemble.t) (x : FeatureVector)
    (votes : list Label) (l : Label) :
  Forall2 (λ na v, ClassifierAdapter.predict na.2 x = inr v)
          (VotingEnsemble.sub_classifiers e) votes →
  VotingEnsemble.count_votes l votes = VotingEnsemble.votes_for e x l.
Proof. apply count_votes_sub_classifiers. Qed.

Lemma predict_unfold (e : VotingEnsemble.t) (x : FeatureVector)
    (votes : list Label) :
  VotingEnsemble.poll e x = inr votes →
  VotingEnsemble.predict e x = VotingEnsemble.plurality votes.
Proof. intros Hpoll. unfold VotingEnsemble.predict. rewrite Hpoll. reflexivity. Qed.

(** C1: when every sub-classifier answers and one label is predicted by
    strictly more sub-classifiers than any other label,
    [VotingEnsemble.predict] returns that label; with three
    sub-classifiers voting {A, A, B} the result is A. *)
Theorem predict_returns_plurality_winner
    (e : VotingEnsemble.t) (x : FeatureVector) (l : Label) :
  Forall (λ na, ∃ v, ClassifierAdapter.predict na.2 x = inr v)
         (VotingEnsemble.sub_classifiers e) →
  (∀ l', l' ≠ l →
     VotingEnsemble.votes_for e x l' < VotingEnsemble.votes_for e x l) →
  VotingEnsemble.predict e x = inr l.
Proof.
  intros Hall Hstrict.
  destruct (poll_all_answer e x Hall) as (votes & Hpoll & Hvotes).
  rewrite (predict_unfold e x votes Hpoll).
  assert (Hcount : ∀ l', l' ≠ l →
            VotingEnsemble.count_votes l' votes
            < VotingEnsemble.count_votes l votes).
  { intros l' Hl'. rewrite !(count_votes_votes_for e x votes) by exact Hvotes.
    apply Hstrict. exact Hl'. }
  apply plurality_strict_winner; [|exact Hcount].
  intros ->.
  specialize (Hcount (if decide (l = positive) then negative else positive)).
  unfold VotingEnsemble.count_votes in Hcount. simpl in Hcount.
  assert (0 < 0); [|lia]. apply Hcount.
  destruct (decide (l = positive)) as [->|Hl]; [discriminate|].
  intros <-. contradiction.
Qed.

Lemma predict_returns_plurality_winner_witness :
  VotingEnsemble.votes_for Samples.ensemble_AAB [true] positive = 2
  ∧ VotingEnsemble.votes_for Samples.ensemble_AAB [true] negative = 1
  ∧ VotingEnsemble.predict Samples.ensemble_AAB [true] = inr positive.
Proof.
  split; [vm_compute; reflexivity|]. split; [vm_compute; reflexivity|].
  apply (predict_returns_plurality_winner Samples.ensemble_AAB [true] positive).
  - repeat (apply Forall_cons; split; [eexists; reflexivity|]). constructor.
  - intros [|] Hl'; [congruence|]. vm_compute. lia.
Defined.

(** C2: when every sub-classifier answers, [VotingEnsemble.predict]
    returns a label predicted by the maximum number of sub-classifiers,
    and among the labels that tie for the maximum it returns the one
    predicted by the earliest-declared sub-classifier; with
    sub-classifiers declared [X, Y] voting {A, B} the result is A. *)
Theorem predict_breaks_ties_by_declaration_order
    (e : VotingEnsemble.t) (x : FeatureVector) :
  VotingEnsemble.sub_classifiers e ≠ [] →
  Forall (λ na, ∃ v, ClassifierAdapter.predict na.2 x = inr v)
         (VotingEnsemble.sub_classifiers e) →
  ∃ (r : Label) (k : nat) (name : string) (a : ClassifierAdapter.t),
    VotingEnsemble.predict e x = inr r
    ∧ VotingEnsemble.sub_classifiers e !! k = Some (name, a)
    ∧ ClassifierAdapter.predict a x = inr r
    ∧ (∀ l, VotingEnsemble.votes_for e x l ≤ VotingEnsemble.votes_for e x r)
    ∧ (∀ j name' a' l,
         VotingEnsemble.sub_classifiers e !! j = Some (name', a') →
         ClassifierAdapter.predict a' x = inr l →
         VotingEnsemble.votes_for e x l = VotingEnsemble.votes_for e x r →
         k ≤ j).
Proof.
  intros Hsubs Hall.
  destruct (poll_all_answer e x Hall) as (votes & Hpoll & Hvotes).
  assert (Hne : votes ≠ []).
  { intros ->. apply Forall2_nil_inv_r in Hvotes. contradiction. }
  destruct (plurality_first_maximum votes Hne)
    as (r & k & Hr & Hk & Hmax & Hfirst).
  destruct (Forall2_lookup_r _ _ _ _ _ Hvotes Hk) as ([name a] & Hsub & Ha).
  exists r, k, name, a. split.
  { rewrite (predict_unfold e x votes Hpoll). exact Hr. }
  split; [exact Hsub|]. split; [exact Ha|]. split.
  { intros l. rewrite <- !(count_votes_votes_for e x votes) by exact Hvotes.
    apply Hmax. }
  intros j name' a' l Hj Hl Heq.
  destruct (Forall2_lookup_l _ _ _ _ _ Hvotes Hj) as (l' & Hl' & Hpred).
  simpl in Hpred. rewrite Hl in Hpred. injection Hpred as <-.
  rewrite <- !(count_votes_votes_for e x votes) in Heq by exact Hvotes.
  eapply Hfirst; eauto.
Qed.

Lemma predict_breaks_ties_by_declaration_order_witness :
  VotingEnsemble.votes_for Samples.ensemble_AB [true] positive
  = VotingEnsemble.votes_for Samples.ensemble_AB [true] negative
  ∧ VotingEnsemble.predict Samples.ensemble_AB [true] = inr positive.
Proof.
  split; [vm_compute; reflexivity|].
  destruct (predict_breaks_ties_by_declaration_order Samples.ensemble_AB
              [true])
    as (r & k & name & a & Hr & Hsub & Ha & Hmax & Hfirst).
  - discriminate.
  - repeat (apply Forall_cons; split; [eexists; reflexivity|]). constructor.
  - rewrite Hr. f_equal.
    assert (Hk : k ≤ 0).
    { apply (Hfirst 0 "X"%string
               (Samples.trained ClassifierAdapter.Bayesian positive) positive).
      - reflexivity.
      - reflexivity.
      - specialize (Hmax positive). destruct r; vm_compute in Hmax |- *; lia. }
    assert (k = 0) as -> by lia.
    simpl in Hsub. injection Hsub as _ <-. simpl in Ha.
    injection Ha as <-. reflexivity.
Defined.

(** ** Prediction before training *)

Section BeforeTrain.
Import Contract.







(** Once [train] has succeeded, [predict] answers a label. *)
Lemma predict_after_train (fit : ClassifierAdapter.Fit)
    (samples : ClassifierAdapter.SampleSet) (a a' : ClassifierAdapter.t)
    (v : FeatureVector) :
  ClassifierAdapter.train fit samples a = inr a' →
  ∃ l, ClassifierAdapter.predict a' v = inr l.
Proof.
  unfold ClassifierAdapter.train. intros Htrain.
  destruct (fit _ _ samples) as [err|m]; [discriminate|].
  injection Htrain as <-. exists (m v). reflexivity.
Qed.
End BeforeTrain.

(** ** The driver's effects *)

Section RunFacts.
Import Driver.
Context {A B : Type}.
Implicit Types (m : Run A) (k : A → Run B).

Lemma trace_bind m k :
  trace (m ≫= k)
  = trace m ++ match outcome m with
               | inl _ => []
               | inr a => trace (k a)
               end.
Proof.
  destruct m as [t [s|a]]; unfold mbind, Run_bind, trace, outcome; simpl.
  - rewrite app_nil_r. reflexivity.
  - destruct (k a) as [t' r]. reflexivity.
Qed.

Lemma outcome_bind m k :
  outcome (m ≫= k)
  = match outcome m with
    | inl s => inl s
    | inr a => outcome (k a)
    end.
Proof.
  destruct m as [t [s|a]]; unfold mbind, Run_bind, trace, outcome; simpl.
  - reflexivity.
  - destruct (k a) as [t' r]. reflexivity.
Qed.

Lemma run_eta (r : Run B) : r = (trace r, outcome r).
Proof. destruct r. reflexivity. Qed.

Lemma bind_ret (a : A) k : (mret a ≫= k) = k a.
Proof.
  unfold mbind, Run_bind, mret, Run_ret, run_ret. simpl.
  destruct (k a). reflexivity.
Qed.

Lemma bind_lift_ok (a : A) k : (lift (inr a) ≫= k) = k a.
Proof. apply bind_ret. Qed.

Lemma bind_lift_raise (e : Error) k :
  (lift (inl e) ≫= k) = ([], inl (Raised e)).
Proof. reflexivity. Qed.
End RunFacts.

Section RunFacts2.
Import Driver.
Context {B : Type}.

Lemma bind_emit (e : Event) (k : unit → Run B) :
  (emit e ≫= k) = (e :: trace (k ()), outcome (k ())).
Proof.
  unfold mbind, Run_bind, emit, trace, outcome. simpl.
  destruct (k ()) as [t r]. reflexivity.
Qed.

Lemma bind_exit (code : nat) (k : unit → Run B) :
  (sys_exit code ≫= k) = ([], inl (SysExit code)).
Proof. reflexivity. Qed.

(** Every event of a loop's trace comes from one of its iterations. *)
Lemma for_each_trace_Forall {A} (P : Event → Prop)
    (body : A → Run unit) (l : list A) :
  (∀ a, a ∈ l → Forall P (trace (body a))) →
  Forall P (trace (for_each body l)).
Proof.
  induction l as [|a l IH]; intros Hbody; simpl.
  - constructor.
  - rewrite trace_bind. apply Forall_app. split.
    + apply Hbody. left.
    + destruct (outcome (body a)); [constructor|].
      apply IH. intros a' Ha'. apply Hbody. right. exact Ha'.
Qed.

(** Properties of every event of a composed run. *)
Lemma bind_trace_Forall {A} (P : Event → Prop) (m : Run A) (k : A → Run B) :
  Forall P (trace m) → (∀ a, Forall P (trace (k a))) →
  Forall P (trace (m ≫= k)).
Proof.
  intros Hm Hk. rewrite trace_bind. apply Forall_app. split; [exact Hm|].
  destruct (outcome m); [constructor|apply Hk].
Qed.

Lemma emit_trace_Forall (P : Event → Prop) (e : Event) :
  P e → Forall P (trace (emit e)).
Proof. intros He. repeat constructor. exact He. Qed.

Lemma lift_trace_Forall {A} (P : Event → Prop) (r : Result A) :
  Forall P (trace (lift r)).
Proof. destruct r; constructor. Qed.
End RunFacts2.

(** Reduces a property of every event of a run to the events it emits. *)
Ltac trace_forall :=
  repeat first
    [ apply bind_trace_Forall
    | apply emit_trace_Forall
    | apply lift_trace_Forall
    | apply for_each_trace_Forall; intros ? _
    | intros ? ].

(** ** The shape of a run of [__main__] *)

Section MainShape.
Import Driver.

Lemma for_each_emit {A} (f : A → Event) (l : list A) :
  for_each (λ a, emit (f a)) l = (f <$> l, inr ()).
Proof.
  induction l as [|a l IH]; cbn [for_each]; [reflexivity|].
  rewrite bind_emit, IH. reflexivity.
Qed.

Lemma bind_then_exit (m : Run unit) :
  (m ≫= λ _, sys_exit 0) = (trace m, then_exit (outcome m)).
Proof.
  rewrite (run_eta (_ ≫= _)), trace_bind, outcome_bind.
  destruct (outcome m); simpl; rewrite app_nil_r; reflexivity.
Qed.

(** [--features]: the features are listed and the run exits before the
    ensemble is built. *)
Lemma main_features w args :
  features args = true →
  main w args
  = (NewMovieReviews 3000 :: PrintLine "Features:"
       :: ((λ p, PrintFeature p.1 p.2)
             <$> imap (λ i feat, (i, feat)) (data_features w)),
     inl (SysExit 0)).
Proof.
  intros Hf. unfold main. rewrite Hf.
  rewrite bind_emit. rewrite (run_eta (_ ≫= _)).
  rewrite trace_bind, outcome_bind.
  rewrite bind_emit, bind_then_exit, for_each_emit.
  cbn [trace outcome fst snd then_exit app]. rewrite app_nil_r.
  reflexivity.
Qed.
Ltac run_steps :=
  repeat first
    [ rewrite bind_emit; cbn [trace outcome fst snd]
    | rewrite bind_ret
    | rewrite bind_lift_ok
    | rewrite bind_lift_raise; cbn [trace outcome fst snd] ].

(** The configuration is rejected: the run stops at the constructor. *)
Lemma main_config_raises w args e :
  features args = false →
  new_sentiment w "voting.yaml" = inl e →
  main w args
  = ([NewMovieReviews 3000; NewSentiment "voting.yaml"], inl (Raised e)).
Proof.
  intros Hf Hs. unfold main. rewrite Hf, Hs. run_steps. reflexivity.
Qed.

(** [--report] *)
Lemma main_report w args s :
  features args = false →
  new_sentiment w "voting.yaml" = inr s →
  report args = true →
  main w args
  = (prologue
       ++ trace (do_report (all_classifiers s)
                   (test_part (get_samples w).1)
                   (test_part (get_samples w).2)),
     then_exit (outcome (do_report (all_classifiers s)
                           (test_part (get_samples w).1)
                           (test_part (get_samples w).2)))).
Proof.
  intros Hf Hs Hr. unfold main. rewrite Hf, Hs, Hr. run_steps.
  rewrite (run_eta (_ ≫= _)), trace_bind, outcome_bind.
  rewrite bind_then_exit. cbn [trace outcome fst snd].
  destruct (outcome (do_report _ _ _)) as [st|[]]; simpl;
    rewrite app_nil_r; reflexivity.
Qed.

(** [--graphs] *)
Lemma main_graphs w args s :
  features args = false →
  new_sentiment w "voting.yaml" = inr s →
  report args = false →
  graphs args = true →
  main w args
  = (prologue
       ++ trace (do_graphs w (all_classifiers s)
                   (test_part (get_samples w).1)
                   (test_part (get_samples w).2)),
     then_exit (outcome (do_graphs w (all_classifiers s)
                           (test_part (get_samples w).1)
                           (test_part (get_samples w).2)))).
Proof.
  intros Hf Hs Hr Hg. unfold main. rewrite Hf, Hs, Hr, Hg. run_steps.
  rewrite (run_eta (_ ≫= _)), trace_bind, outcome_bind.
  rewrite bind_then_exit. cbn [trace outcome fst snd].
  destruct (outcome (do_graphs _ _ _ _)) as [st|[]]; simpl;
    rewrite app_nil_r; reflexivity.
Qed.

(** [--learning] *)
Lemma main_learning w args s :
  features args = false →
  new_sentiment w "voting.yaml" = inr s →
  report args = false →
  graphs args = false →
  learning args = true →
  main w args
  = (prologue
       ++ trace (do_learning_curve w (sub_classifier_items s)
                   (get_samples w).1 (get_samples w).2),
     then_exit (outcome (do_learning_curve w (sub_classifier_items s)
                           (get_samples w).1 (get_samples w).2))).
Proof.
  intros Hf Hs Hr Hg Hl. unfold main. rewrite Hf, Hs, Hr, Hg, Hl. run_steps.
  rewrite (run_eta (_ ≫= _)), trace_bind, outcome_bind.
  rewrite bind_then_exit. cbn [trace outcome fst snd].
  destruct (outcome (do_learning_curve _ _ _ _)) as [st|[]]; simpl;
    rewrite app_nil_r; reflexivity.
Qed.

(** No command flag: the classifiers are built. *)
Lemma main_train w args s :
  features args = false →
  new_sentiment w "voting.yaml" = inr s →
  report args = false →
  graphs args = false →
  learning args = false →
  trace (main w args)
  = prologue
      ++ [Log "Creating classifiers...";
          InitClassifiers (train_part (get_samples w).1)
                          (train_part (get_samples w).2)]
      ++ match init_classifiers w s (train_part (get_samples w).1)
                 (train_part (get_samples w).2) with
         | inl _ => []
         | inr _ => [Log "Done."]
         end.
Proof.
  intros Hf Hs Hr Hg Hl. unfold main. rewrite Hf, Hs, Hr, Hg, Hl. run_steps.
  destruct (init_classifiers _ _ _ _) as [e|[]]; run_steps; reflexivity.
Qed.
End MainShape.

(** ** The traces of the three commands *)

Section CommandTraces.
Import Driver.
Implicit Types (classifiers : list (string * Classifier))
  (X : list FeatureVector) (y : list Label).

Lemma call_predict_trace label clf X :
  trace (call_predict label clf X) = [Predict label clf X].
Proof.
  unfold call_predict. rewrite bind_emit.
  destruct (classifier_predict clf X); reflexivity.
Qed.

Lemma call_predict_trace_Forall (P : Event → Prop) label clf X :
  P (Predict label clf X) → Forall P (trace (call_predict label clf X)).
Proof. intros HP. rewrite call_predict_trace. repeat constructor. exact HP. Qed.

Lemma subplots_trace_Forall (P : Event → Prop) rows cols :
  P (Subplots rows cols) → Forall P (trace (subplots rows cols)).
Proof.
  intros HP. unfold subplots. apply bind_trace_Forall.
  - apply emit_trace_Forall. exact HP.
  - intros _. destruct (_ || _); [apply lift_trace_Forall|constructor].
Qed.

Lemma do_report_trace classifiers X y :
  ∃ tl, trace (do_report classifiers X y) = CallReport classifiers X y :: tl
        ∧ Forall scoring tl.
Proof.
  unfold do_report. rewrite bind_emit. cbn [trace outcome fst snd].
  eexists. split; [reflexivity|]. unfold _dump_metrics.
  trace_forall; split; reflexivity.
Qed.

Lemma do_graphs_trace w classifiers X y :
  ∃ tl, trace (do_graphs w classifiers X y) = CallGraphs classifiers X y :: tl
        ∧ Forall scoring tl.
Proof.
  unfold do_graphs. rewrite bind_emit. cbn [trace outcome fst snd].
  eexists. split; [reflexivity|].
  trace_forall;
    first [ split; reflexivity
          | destruct (_ || _); [apply lift_trace_Forall|constructor] ].
Qed.

Lemma do_learning_curve_trace w classifiers X y :
  ∃ tl, trace (do_learning_curve w classifiers X y)
        = CallLearningCurve classifiers X y :: tl
        ∧ Forall fitting tl.
Proof.
  unfold do_learning_curve. rewrite bind_emit. cbn [trace outcome fst snd].
  eexists. split; [reflexivity|].
  trace_forall; split; reflexivity.
Qed.
End CommandTraces.

(** ** The grid of confusion matrices *)

Lemma ceil_div_4 (n : nat) : Driver.ceil_div n 4 = (n + 3) / 4.
Proof.
  unfold Driver.ceil_div.
  assert (Hq : Qceiling (inject_Z (Z.of_nat n) / inject_Z (Z.of_nat 4))
               = (- ((- Z.of_nat n) / 4))%Z).
  { change (inject_Z (Z.of_nat 4)) with (4 # 1)%Q.
    unfold Qdiv, Qmult, Qinv, Qceiling, Qfloor, Qopp, inject_Z.
    cbn [Qnum Qden]. rewrite Z.mul_1_r. reflexivity. }
  rewrite Hq. apply Nat2Z.inj. rewrite Nat2Z.inj_div, Nat2Z.inj_add.
  change (Z.of_nat 3) with 3%Z. change (Z.of_nat 4) with 4%Z.
  pose proof (Z.div_mod (- Z.of_nat n) 4 ltac:(lia)).
  pose proof (Z.mod_pos_bound (- Z.of_nat n) 4 ltac:(lia)).
  pose proof (Z.div_mod (Z.of_nat n + 3) 4 ltac:(lia)).
  pose proof (Z.mod_pos_bound (Z.of_nat n + 3) 4 ltac:(lia)).
  rewrite Z2Nat.id by lia. lia.
Qed.

(** The number of rows is the ceiling of [n / 4]. *)
Lemma ceil_div_4_bounds (n : nat) :
  n ≤ 4 * Driver.ceil_div n 4 ∧ 4 * Driver.ceil_div n 4 < n + 4.
Proof.
  rewrite ceil_div_4.
  pose proof (Nat.div_mod_eq (n + 3) 4).
  pose proof (Nat.mod_upper_bound (n + 3) 4). lia.
Qed.

Section Grid.
Import Driver.

Lemma grid_rows_length s rows cols :
  length (flat (grid_rows s rows cols)) = rows * cols.
Proof.
  revert s. induction rows as [|rows IH]; intros s; [reflexivity|].
  unfold flat, grid_rows in *. cbn [seq fmap list_fmap concat].
  rewrite length_app, length_fmap, length_seq, IH. reflexivity.
Qed.

Lemma grid_rows_elem s rows cols r c :
  (r, c) ∈ flat (grid_rows s rows cols) → s ≤ r.
Proof.
  revert s. induction rows as [|rows IH]; intros s Hin.
  - unfold flat, grid_rows in Hin. simpl in Hin. inversion Hin.
  - unfold flat, grid_rows in *. cbn [seq fmap list_fmap concat] in Hin.
    apply elem_of_app in Hin as [Hrow|Hrest].
    + apply list_elem_of_fmap in Hrow as (c' & Heq & _).
      injection Heq as -> _. lia.
    + specialize (IH _ Hrest). lia.
Qed.

Lemma grid_rows_NoDup s rows cols : NoDup (flat (grid_rows s rows cols)).
Proof.
  revert s. induction rows as [|rows IH]; intros s.
  - constructor.
  - unfold flat, grid_rows in *. cbn [seq fmap list_fmap concat].
    apply NoDup_app. split; [|split].
    + apply NoDup_fmap_2; [|apply NoDup_seq]. intros c c' Heq.
      injection Heq as ->. reflexivity.
    + intros [r c] Hrow Hrest.
      apply list_elem_of_fmap in Hrow as (c' & Heq & _).
      injection Heq as -> _.
      pose proof (grid_rows_elem _ _ _ _ _ Hrest). lia.
    + apply IH.
Qed.

Lemma flat_axes_grid_length rows cols :
  length (flat (axes_grid rows cols)) = rows * cols.
Proof. apply grid_rows_length. Qed.

Lemma flat_axes_grid_NoDup rows cols : NoDup (flat (axes_grid rows cols)).
Proof. apply grid_rows_NoDup. Qed.
End Grid.

(** ** Which calls a run can make *)

Section RunKinds.
Import Driver.

Lemma scoring_no_training e : scoring e → is_training e = false.
Proof. intros [Ht _]. exact Ht. Qed.

Lemma fitting_no_predict e : fitting e → is_predict e = false.
Proof. intros [Hp _]. exact Hp. Qed.

Lemma prologue_quiet :
  Forall (λ e, is_predict e = false ∧ is_training e = false
               ∧ is_call e = false) prologue.
Proof. repeat constructor. Qed.

(** A run lists the features, or is stopped by the constructor, or
    scores the classifiers it was given, or fits classifiers. *)
Lemma main_run_kinds w args :
  let t := trace (main w args) in
  (features args = true
   ∧ Forall (λ e, is_predict e = false ∧ is_training e = false) t)
  ∨ (features args = false
     ∧ ∃ err, new_sentiment w "voting.yaml" = inl err
              ∧ main w args
                = ([NewMovieReviews 3000; NewSentiment "voting.yaml"],
                   inl (Raised err)))
  ∨ (features args = false
     ∧ (report args = true ∨ graphs args = true)
     ∧ ∃ s tl, new_sentiment w "voting.yaml" = inr s
               ∧ t = prologue ++ tl
               ∧ Forall (λ e, is_training e = false) tl)
  ∨ (features args = false ∧ report args = false ∧ graphs args = false
     ∧ ∃ s tl, new_sentiment w "voting.yaml" = inr s
               ∧ t = prologue ++ tl
               ∧ Forall (λ e, is_predict e = false) tl).
Proof.
  intros t. subst t.
  destruct (features args) eqn:Hf.
  { left. split; [reflexivity|]. rewrite main_features by exact Hf.
    cbn [trace fst]. repeat (apply Forall_cons; split; [split; reflexivity|]).
    apply Forall_fmap, Forall_forall. intros; split; reflexivity. }
  right. destruct (new_sentiment w "voting.yaml") as [err|s] eqn:Hs.
  { left. split; [reflexivity|]. exists err. split; [reflexivity|].
    apply main_config_raises; assumption. }
  right. destruct (report args) eqn:Hr.
  { left. split; [reflexivity|]. split; [left; reflexivity|].
    rewrite (main_report w args s Hf Hs Hr). cbn [trace fst].
    destruct (do_report_trace (all_classifiers s)
                (test_part (get_samples w).1) (test_part (get_samples w).2))
      as (tl & -> & Htl).
    eexists s, _. split; [reflexivity|]. split; [reflexivity|].
    apply Forall_cons. split; [reflexivity|].
    eapply Forall_impl; [exact Htl|]. apply scoring_no_training. }
  destruct (graphs args) eqn:Hg.
  { left. split; [reflexivity|]. split; [right; reflexivity|].
    rewrite (main_graphs w args s Hf Hs Hr Hg). cbn [trace fst].
    destruct (do_graphs_trace w (all_classifiers s)
                (test_part (get_samples w).1) (test_part (get_samples w).2))
      as (tl & -> & Htl).
    eexists s, _. split; [reflexivity|]. split; [reflexivity|].
    apply Forall_cons. split; [reflexivity|].
    eapply Forall_impl; [exact Htl|]. apply scoring_no_training. }
  right. do 3 (split; [reflexivity|]).
  destruct (learning args) eqn:Hl.
  - rewrite (main_learning w args s Hf Hs Hr Hg Hl). cbn [trace fst].
    destruct (do_learning_curve_trace w (sub_classifier_items s)
                (get_samples w).1 (get_samples w).2) as (tl & -> & Htl).
    eexists s, _. split; [reflexivity|]. split; [reflexivity|].
    apply Forall_cons. split; [reflexivity|].
    eapply Forall_impl; [exact Htl|]. apply fitting_no_predict.
  - rewrite (main_train w args s Hf Hs Hr Hg Hl).
    eexists s, _. split; [reflexivity|]. split; [reflexivity|].
    do 2 (apply Forall_cons; split; [reflexivity|]).
    destruct (init_classifiers _ _ _ _); repeat constructor.
Qed.
End RunKinds.

(** ** The data a run hands over *)

Section RunData.
Import Driver.

Lemma do_learning_curve_no_init w classifiers X y :
  Forall (λ e, is_init e = false)
         (trace (do_learning_curve w classifiers X y)).
Proof. unfold do_learning_curve. trace_forall; reflexivity. Qed.

Lemma scoring_no_init t : Forall scoring t → Forall (λ e, is_init e = false) t.
Proof.
  intros Ht. eapply Forall_impl; [exact Ht|].
  intros [] [Htrain _]; first [reflexivity | discriminate Htrain].
Qed.

Lemma prologue_no_init : Forall (λ e, is_init e = false) prologue.
Proof. repeat constructor. Qed.

Lemma no_init_not_elem t X' y' :
  Forall (λ e, is_init e = false) t → InitClassifiers X' y' ∉ t.
Proof.
  intros Ht Hin. rewrite Forall_forall in Ht. specialize (Ht _ Hin).
  discriminate.
Qed.

(** The only [init_classifiers] call of any run is the one on the first
    1900 samples, in a run given no flag; such a run calls no
    [predict]. *)
Lemma main_train_data w args X' y' :
  InitClassifiers X' y' ∈ trace (main w args) →
  features args = false ∧ report args = false ∧ graphs args = false
  ∧ learning args = false
  ∧ X' = train_part (get_samples w).1 ∧ y' = train_part (get_samples w).2
  ∧ Forall (λ e, is_predict e = false) (trace (main w args)).
Proof.
  intros Hin.
  destruct (features args) eqn:Hf.
  { exfalso. revert Hin. rewrite main_features by exact Hf.
    apply no_init_not_elem. cbn [trace fst].
    repeat (apply Forall_cons; split; [reflexivity|]).
    apply Forall_fmap, Forall_forall. intros; reflexivity. }
  destruct (new_sentiment w "voting.yaml") as [err|s] eqn:Hs.
  { exfalso. revert Hin. rewrite (main_config_raises w args err Hf Hs).
    apply no_init_not_elem. repeat constructor. }
  destruct (report args) eqn:Hr.
  { exfalso. revert Hin. rewrite (main_report w args s Hf Hs Hr).
    apply no_init_not_elem. cbn [trace fst].
    destruct (do_report_trace (all_classifiers s)
                (test_part (get_samples w).1) (test_part (get_samples w).2))
      as (tl & -> & Htl).
    apply Forall_app. split; [apply prologue_no_init|].
    apply Forall_cons. split; [reflexivity|]. apply scoring_no_init, Htl. }
  destruct (graphs args) eqn:Hg.
  { exfalso. revert Hin. rewrite (main_graphs w args s Hf Hs Hr Hg).
    apply no_init_not_elem. cbn [trace fst].
    destruct (do_graphs_trace w (all_classifiers s)
                (test_part (get_samples w).1) (test_part (get_samples w).2))
      as (tl & -> & Htl).
    apply Forall_app. split; [apply prologue_no_init|].
    apply Forall_cons. split; [reflexivity|]. apply scoring_no_init, Htl. }
  destruct (learning args) eqn:Hl.
  { exfalso. revert Hin. rewrite (main_learning w args s Hf Hs Hr Hg Hl).
    apply no_init_not_elem. cbn [trace fst].
    apply Forall_app. split; [apply prologue_no_init|].
    apply do_learning_curve_no_init. }
  do 4 (split; [reflexivity|]).
  rewrite (main_train w args s Hf Hs Hr Hg Hl) in Hin |- *.
  split; [|split].
  - apply elem_of_app in Hin as [Hin|Hin];
      [destruct (no_init_not_elem _ _ _ prologue_no_init Hin)|].
    apply elem_of_cons in Hin as [Heq|Hin]; [discriminate|].
    apply elem_of_cons in Hin as [Heq|Hin]; [injection Heq as -> _; reflexivity|].
    exfalso. revert Hin. apply no_init_not_elem.
    destruct (init_classifiers _ _ _ _); repeat constructor.
  - apply elem_of_app in Hin as [Hin|Hin];
      [destruct (no_init_not_elem _ _ _ prologue_no_init Hin)|].
    apply elem_of_cons in Hin as [Heq|Hin]; [discriminate|].
    apply elem_of_cons in Hin as [Heq|Hin]; [injection Heq as _ ->; reflexivity|].
    exfalso. revert Hin. apply no_init_not_elem.
    destruct (init_classifiers _ _ _ _); repeat constructor.
  - rewrite app_assoc. apply Forall_app. split.
    + repeat (apply Forall_cons; split; [reflexivity|]). constructor.
    + destruct (init_classifiers _ _ _ _); repeat constructor.
Qed.

Lemma call_event_after_prologue c tl e :
  Forall (λ e, is_call e = false) tl →
  e ∈ prologue ++ c :: tl → is_call e = true → e = c.
Proof.
  intros Htl Hin He. apply elem_of_app in Hin as [Hin|Hin].
  - pose proof prologue_quiet as Hq. rewrite Forall_forall in Hq.
    destruct (Hq e Hin) as (_ & _ & ?). congruence.
  - apply elem_of_cons in Hin as [->|Hin]; [reflexivity|].
    rewrite Forall_forall in Htl. specialize (Htl e Hin). congruence.
Qed.

(** The only command entered in any run is the one of the first flag
    set, on the samples the source hands it. *)
Lemma main_command_data w args e :
  e ∈ trace (main w args) → is_call e = true →
  features args = false
  ∧ ∃ s, new_sentiment w "voting.yaml" = inr s
         ∧ ((report args = true
             ∧ e = CallReport (all_classifiers s)
                     (test_part (get_samples w).1)
                     (test_part (get_samples w).2))
            ∨ (report args = false ∧ graphs args = true
               ∧ e = CallGraphs (all_classifiers s)
                       (test_part (get_samples w).1)
                       (test_part (get_samples w).2))
            ∨ (report args = false ∧ graphs args = false
               ∧ learning args = true
               ∧ e = CallLearningCurve (sub_classifier_items s)
                       (get_samples w).1 (get_samples w).2)).
Proof.
  intros Hin He.
  destruct (features args) eqn:Hf.
  { exfalso. rewrite main_features in Hin by exact Hf. cbn [trace fst] in Hin.
    do 2 (apply elem_of_cons in Hin as [->|Hin]; [discriminate|]).
    apply list_elem_of_fmap in Hin as (p & -> & _). discriminate. }
  split; [reflexivity|].
  destruct (new_sentiment w "voting.yaml") as [err|s] eqn:Hs.
  { exfalso. rewrite (main_config_raises w args err Hf Hs) in Hin.
    cbn [trace fst] in Hin.
    do 2 (apply elem_of_cons in Hin as [->|Hin]; [discriminate|]).
    inversion Hin. }
  exists s. split; [reflexivity|].
  destruct (report args) eqn:Hr.
  { left. split; [reflexivity|].
    rewrite (main_report w args s Hf Hs Hr) in Hin. cbn [trace fst] in Hin.
    destruct (do_report_trace (all_classifiers s)
                (test_part (get_samples w).1) (test_part (get_samples w).2))
      as (tl & Htrace & Htl).
    rewrite Htrace in Hin.
    eapply call_event_after_prologue; [|exact Hin|exact He].
    eapply Forall_impl; [exact Htl|]. intros ? [_ ?]. assumption. }
  destruct (graphs args) eqn:Hg.
  { right. left. do 2 (split; [reflexivity|]).
    rewrite (main_graphs w args s Hf Hs Hr Hg) in Hin. cbn [trace fst] in Hin.
    destruct (do_graphs_trace w (all_classifiers s)
                (test_part (get_samples w).1) (test_part (get_samples w).2))
      as (tl & Htrace & Htl).
    rewrite Htrace in Hin.
    eapply call_event_after_prologue; [|exact Hin|exact He].
    eapply Forall_impl; [exact Htl|]. intros ? [_ ?]. assumption. }
  destruct (learning args) eqn:Hl.
  { right. right. do 3 (split; [reflexivity|]).
    rewrite (main_learning w args s Hf Hs Hr Hg Hl) in Hin.
    cbn [trace fst] in Hin.
    destruct (do_learning_curve_trace w (sub_classifier_items s)
                (get_samples w).1 (get_samples w).2) as (tl & Htrace & Htl).
    rewrite Htrace in Hin.
    eapply call_event_after_prologue; [|exact Hin|exact He].
    eapply Forall_impl; [exact Htl|]. intros ? [_ ?]. assumption. }
  exfalso. rewrite (main_train w args s Hf Hs Hr Hg Hl) in Hin.
  apply elem_of_app in Hin as [Hin|Hin].
  - pose proof prologue_quiet as Hq. rewrite Forall_forall in Hq.
    destruct (Hq e Hin) as (_ & _ & ?). congruence.
  - do 2 (apply elem_of_cons in Hin as [->|Hin]; [discriminate|]).
    destruct (init_classifiers _ _ _ _).
    + inversion Hin.
    + apply list_elem_of_singleton in Hin as ->. discriminate.
Qed.
End RunData.

(** ** The train/test split *)

(** C6: for parallel sample sequences of equal length returned by
    [get_samples], the driver hands [init_classifiers] exactly the first
    1900 (feature, label) pairs and hands [do_report] and [do_graphs]
    exactly the remaining pairs; the two parts concatenate to X and y
    unchanged, and every feature vector stays paired with its own
    label. *)
Theorem train_test_split (w : Driver.World) (args : Driver.Args)
    (s : Driver.Sentiment) :
  Driver.features args = false →
  Driver.new_sentiment w "voting.yaml" = inr s →
  length (Driver.get_samples w).1 = length (Driver.get_samples w).2 →
  let X := (Driver.get_samples w).1 in
  let y := (Driver.get_samples w).2 in
  let X_train := take 1900 X in
  let y_train := take 1900 y in
  let X_test := drop 1900 X in
  let y_test := drop 1900 y in
  let t := Driver.trace (Driver.main w args) in
  (Driver.report args = true →
   Driver.CallReport (Driver.all_classifiers s) X_test y_test ∈ t)
  ∧ (Driver.report args = false → Driver.graphs args = true →
     Driver.CallGraphs (Driver.all_classifiers s) X_test y_test ∈ t)
  ∧ (Driver.report args = false → Driver.graphs args = false →
     Driver.learning args = false →
     Driver.InitClassifiers X_train y_train ∈ t)
  ∧ (∀ X' y', Driver.InitClassifiers X' y' ∈ t →
              X' = X_train ∧ y' = y_train)
  ∧ (∀ cls X' y',
       Driver.CallReport cls X' y' ∈ t ∨ Driver.CallGraphs cls X' y' ∈ t →
       X' = X_test ∧ y' = y_test)
  ∧ X_train ++ X_test = X
  ∧ y_train ++ y_test = y
  ∧ zip X_train y_train = take 1900 (zip X y)
  ∧ zip X_test y_test = drop 1900 (zip X y)
  ∧ length X_train = 1900 `min` length X
  ∧ length X_train = length y_train
  ∧ length X_test = length y_test
  ∧ (∀ i, i < 1900 → X_train !! i = X !! i ∧ y_train !! i = y !! i)
  ∧ (∀ i, X_test !! i = X !! (1900 + i) ∧ y_test !! i = y !! (1900 + i)).
Proof.
  intros Hf Hs Hlen X y X_train y_train X_test y_test t.
  split; [|split; [|split; [|split; [|split]]]].
  - intros Hr. subst t. rewrite (main_report w args s Hf Hs Hr).
    cbn [Driver.trace fst].
    destruct (do_report_trace (Driver.all_classifiers s)
                (Driver.test_part (Driver.get_samples w).1)
                (Driver.test_part (Driver.get_samples w).2))
      as (tl & -> & _).
    apply elem_of_app. right. left.
  - intros Hr Hg. subst t. rewrite (main_graphs w args s Hf Hs Hr Hg).
    cbn [Driver.trace fst].
    destruct (do_graphs_trace w (Driver.all_classifiers s)
                (Driver.test_part (Driver.get_samples w).1)
                (Driver.test_part (Driver.get_samples w).2))
      as (tl & -> & _).
    apply elem_of_app. right. left.
  - intros Hr Hg Hl. subst t. rewrite (main_train w args s Hf Hs Hr Hg Hl).
    apply elem_of_app. right. right. left.
  - intros X' y' Hin.
    destruct (main_train_data w args X' y' Hin) as (_ & _ & _ & _ & -> & -> & _).
    split; reflexivity.
  - intros cls X' y' [Hin|Hin];
      destruct (main_command_data w args _ Hin eq_refl)
        as (_ & s' & _ & [(_ & Heq)|[(_ & _ & Heq)|(_ & _ & _ & Heq)]]);
      first [discriminate Heq | injection Heq as _ -> ->; split; reflexivity].
  - unfold X_train, y_train, X_test, y_test. repeat split.
    + apply take_drop.
    + apply take_drop.
    + symmetry. apply zip_with_take.
    + symmetry. apply zip_with_drop.
    + apply length_take.
    + rewrite !length_take. fold X y in Hlen. rewrite Hlen. reflexivity.
    + rewrite !length_drop. fold X y in Hlen. rewrite Hlen. reflexivity.
    + apply lookup_take_lt. assumption.
    + apply lookup_take_lt. assumption.
    + apply lookup_drop.
    + apply lookup_drop.
Qed.

Lemma train_test_split_witness :
  Driver.InitClassifiers (replicate 1900 [true]) (replicate 1900 positive)
    ∈ Driver.trace (Driver.main (Samples.world_many Samples.ensemble_AB)
                      Samples.args_none)
  ∧ Driver.CallReport
      (Driver.all_classifiers (Driver.mkSentiment Samples.ensemble_AB))
      [[false]; [false]] [negative; negative]
    ∈ Driver.trace (Driver.main (Samples.world_many Samples.ensemble_AB)
                      Samples.args_report).
Proof.
  split.
  - refine (proj1 (proj2 (proj2 (train_test_split
                                   (Samples.world_many Samples.ensemble_AB)
                                   Samples.args_none
                                   (Driver.mkSentiment Samples.ensemble_AB)
                                   _ _ _))) _ _ _);
      first [reflexivity | vm_compute; reflexivity].
  - refine (proj1 (train_test_split
                     (Samples.world_many Samples.ensemble_AB)
                     Samples.args_report
                     (Driver.mkSentiment Samples.ensemble_AB)
                     _ _ _) _);
      first [reflexivity | vm_compute; reflexivity].
Defined.

(** ** Prediction and training in a run *)

(** C3, as stated, fails: with [--report] the driver calls [predict] on
    the voting classifier although no training call precedes it in the
    run. *)
Lemma report_predicts_without_training :
  ¬ (∀ w args, Driver.trained_before_predict (Driver.trace (Driver.main w args))).
Proof.
  intros Hall.
  specialize (Hall (Samples.world_ok Samples.ensemble_AAB) Samples.args_report).
  destruct (Hall 8 (Driver.Predict "voting"
                      (Driver.Voting Samples.ensemble_AAB) []))
    as (j & e' & Hj & He' & Htrain); [reflexivity..|].
  do 8 (destruct j as [|j];
        [vm_compute in He'; injection He' as <-; discriminate Htrain|]).
  lia.
Qed.

(** C3, amended: a run in which the driver calls [predict] is a
    [--report] or [--graphs] run and makes no training call at all,
    neither before nor after the [predict]; and a run in which the
    driver calls [init_classifiers] was given none of the four flags and
    calls no [predict]. *)
Theorem predict_runs_do_not_train (w : Driver.World) (args : Driver.Args) :
  (∀ e, e ∈ Driver.trace (Driver.main w args) →
        Driver.is_predict e = true →
        Driver.features args = false
        ∧ (Driver.report args = true ∨ Driver.graphs args = true)
        ∧ Forall (λ e', Driver.is_training e' = false)
                 (Driver.trace (Driver.main w args)))
  ∧ (∀ X y, Driver.InitClassifiers X y ∈ Driver.trace (Driver.main w args) →
            Driver.features args = false ∧ Driver.report args = false
            ∧ Driver.graphs args = false ∧ Driver.learning args = false
            ∧ Forall (λ e, Driver.is_predict e = false)
                     (Driver.trace (Driver.main w args))).
Proof.
  split.
  - intros e Hin Hpred.
    destruct (main_run_kinds w args)
      as [(_ & Hquiet)
         |[(_ & err & _ & Hrun)
          |[(Hf & Hcmd & s & tl & _ & Ht & Htl)
           |(_ & _ & _ & s & tl & _ & Ht & Htl)]]]; cbn zeta in *.
    + rewrite Forall_forall in Hquiet. destruct (Hquiet e Hin). congruence.
    + rewrite Hrun in Hin. cbn [Driver.trace fst] in Hin.
      apply elem_of_cons in Hin as [->|Hin]; [discriminate|].
      apply list_elem_of_singleton in Hin as ->. discriminate.
    + split; [exact Hf|]. split; [exact Hcmd|]. rewrite Ht.
      apply Forall_app. split; [|exact Htl].
      eapply Forall_impl; [apply prologue_quiet|].
      intros ? (_ & ? & _). assumption.
    + rewrite Ht in Hin. apply elem_of_app in Hin as [Hin|Hin].
      * pose proof prologue_quiet as Hq. rewrite Forall_forall in Hq.
        destruct (Hq e Hin). congruence.
      * rewrite Forall_forall in Htl. specialize (Htl e Hin). congruence.
  - intros X y Hin.
    destruct (main_train_data w args X y Hin)
      as (Hf & Hr & Hg & Hl & _ & _ & Hnone).
    repeat (split; [assumption|]). exact Hnone.
Qed.

Lemma predict_runs_do_not_train_witness :
  Forall (λ e', Driver.is_training e' = false)
         (Driver.trace (Driver.main (Samples.world_ok Samples.ensemble_AAB)
                          Samples.args_report))
  ∧ Forall (λ e, Driver.is_predict e = false)
           (Driver.trace (Driver.main (Samples.world_ok Samples.ensemble_AAB)
                            Samples.args_none)).
Proof.
  split.
  - apply (proj1 (predict_runs_do_not_train
                    (Samples.world_ok Samples.ensemble_AAB)
                    Samples.args_report)
             (Driver.Predict "voting" (Driver.Voting Samples.ensemble_AAB) [])).
    + apply list_elem_of_lookup. exists 8. reflexivity.
    + reflexivity.
  - apply (proj2 (predict_runs_do_not_train
                    (Samples.world_ok Samples.ensemble_AAB)
                    Samples.args_none)
             (take 1900 Samples.five_samples.1)
             (take 1900 Samples.five_samples.2)).
    apply list_elem_of_lookup. exists 5. reflexivity.
Defined.

(** ** Construction before training *)

(** C7: in every run the ensemble is constructed before any training
    call, so when the constructor raises ConfigError the run has made no
    training call, and it ends with that error. *)
Theorem construction_precedes_training (w : Driver.World)
    (args : Driver.Args) :
  (∀ j e, Driver.trace (Driver.main w args) !! j = Some e →
          Driver.is_training e = true →
          ∃ s, Driver.new_sentiment w "voting.yaml" = inr s
               ∧ Driver.trace (Driver.main w args) !! 1
                 = Some (Driver.NewSentiment "voting.yaml")
               ∧ 1 < j)
  ∧ (Driver.new_sentiment w "voting.yaml" = inl ConfigError →
     Forall (λ e, Driver.is_training e = false)
            (Driver.trace (Driver.main w args))
     ∧ (Driver.features args = false →
        Driver.outcome (Driver.main w args)
        = inl (Driver.Raised ConfigError))).
Proof.
  destruct (main_run_kinds w args)
    as [(Hf & Hquiet)
       |[(Hf & err & Hs & Hrun)
        |[(Hf & Hcmd & s & tl & Hs & Ht & Htl)
         |(Hf & Hr & Hg & s & tl & Hs & Ht & Htl)]]]; cbn zeta in *.
  - split.
    + intros j e Hj Htrain. rewrite Forall_forall in Hquiet.
      destruct (Hquiet e) as [_ ?]; [|congruence].
      apply list_elem_of_lookup. eauto.
    + intros _. split; [|congruence].
      eapply Forall_impl; [exact Hquiet|]. intros ? [_ ?]. assumption.
  - rewrite Hrun. cbn [Driver.trace Driver.outcome fst snd]. split.
    + intros [|[|j]] e Hj Htrain; simpl in Hj;
        [injection Hj as <-; discriminate
        |injection Hj as <-; discriminate
        |rewrite lookup_nil in Hj; discriminate].
    + intros Herr. rewrite Hs in Herr. injection Herr as ->.
      split; [repeat constructor|reflexivity].
  - split; [|rewrite Hs; discriminate].
    intros j e Hj Htrain. rewrite Ht in Hj.
    assert (Hin : e ∈ Driver.prologue ++ tl) by (apply list_elem_of_lookup; eauto).
    apply elem_of_app in Hin as [Hin|Hin].
    + pose proof prologue_quiet as Hq. rewrite Forall_forall in Hq.
      destruct (Hq e Hin) as (_ & ? & _). congruence.
    + rewrite Forall_forall in Htl. specialize (Htl e Hin). congruence.
  - split; [|rewrite Hs; discriminate].
    intros j e Hj Htrain. exists s. split; [exact Hs|].
    rewrite Ht in Hj |- *. split; [reflexivity|].
    do 2 (destruct j as [|j]; [simpl in Hj; injection Hj as <-; discriminate|]).
    lia.
Qed.

Lemma construction_precedes_training_witness :
  Forall (λ e, Driver.is_training e = false)
         (Driver.trace (Driver.main Samples.world_bad_config Samples.args_none))
  ∧ Driver.outcome (Driver.main Samples.world_bad_config Samples.args_none)
    = inl (Driver.Raised ConfigError).
Proof.
  destruct (construction_precedes_training Samples.world_bad_config
              Samples.args_none) as [_ Hbad].
  destruct (Hbad eq_refl) as [Hnone Hout].
  split; [exact Hnone|]. apply Hout. reflexivity.
Defined.

(** ** The classifiers handed to the commands *)

Lemma single_items_NoDup (subs : list (string * ClassifierAdapter.t)) :
  NoDup subs.*1 →
  NoDup ((λ na, (na.1, Driver.Single na.2)) <$> subs).
Proof.
  intros Hnames. apply (NoDup_fmap_1 fst).
  rewrite <- list_fmap_compose.
  erewrite list_fmap_ext; [exact Hnames|]. intros _ [name a] _. reflexivity.
Qed.

(** C5: for [--report] and [--graphs] the pairs handed to the reporting
    or graphing function are ("voting", ensemble) followed by the
    (name, adapter) pairs of the ensemble's [sub_classifiers] mapping in
    its insertion order: one entry per sub-classifier, none twice. *)
Theorem report_and_graphs_classifiers (w : Driver.World)
    (args : Driver.Args) (s : Driver.Sentiment) :
  Driver.features args = false →
  Driver.new_sentiment w "voting.yaml" = inr s →
  Driver.report args = true ∨ Driver.graphs args = true →
  NoDup (VotingEnsemble.sub_classifiers (Driver.voting_classifier s)).*1 →
  let subs := VotingEnsemble.sub_classifiers (Driver.voting_classifier s) in
  let handed :=
    ("voting"%string, Driver.Voting (Driver.voting_classifier s))
      :: ((λ na, (na.1, Driver.Single na.2)) <$> subs) in
  let X_test := drop 1900 (Driver.get_samples w).1 in
  let y_test := drop 1900 (Driver.get_samples w).2 in
  (∃ tl,
     Driver.trace (Driver.main w args)
     = Driver.prologue
         ++ (if Driver.report args
             then Driver.CallReport handed X_test y_test
             else Driver.CallGraphs handed X_test y_test) :: tl
     ∧ Forall (λ e, Driver.is_call e = false) tl)
  ∧ length handed = 1 + length subs
  ∧ (tail handed).*1 = subs.*1
  ∧ NoDup handed.
Proof.
  intros Hf Hs Hcmd Hnames subs handed X_test y_test. split; [|split; [|split]].
  - destruct (Driver.report args) eqn:Hr.
    + rewrite (main_report w args s Hf Hs Hr). cbn [Driver.trace fst].
      destruct (do_report_trace (Driver.all_classifiers s)
                  (Driver.test_part (Driver.get_samples w).1)
                  (Driver.test_part (Driver.get_samples w).2))
        as (tl & -> & Htl).
      exists tl. split; [reflexivity|].
      eapply Forall_impl; [exact Htl|]. intros ? [_ ?]. assumption.
    + destruct Hcmd as [?|Hg]; [discriminate|].
      rewrite (main_graphs w args s Hf Hs Hr Hg). cbn [Driver.trace fst].
      destruct (do_graphs_trace w (Driver.all_classifiers s)
                  (Driver.test_part (Driver.get_samples w).1)
                  (Driver.test_part (Driver.get_samples w).2))
        as (tl & -> & Htl).
      exists tl. split; [reflexivity|].
      eapply Forall_impl; [exact Htl|]. intros ? [_ ?]. assumption.
  - subst handed. cbn [length]. rewrite length_fmap. reflexivity.
  - subst handed. cbn [tail]. rewrite <- list_fmap_compose.
    apply list_fmap_ext. intros _ [name a] _. reflexivity.
  - subst handed. apply NoDup_cons. split.
    + intros Hin. apply list_elem_of_fmap in Hin as ([name a] & Heq & _).
      discriminate.
    + apply single_items_NoDup. exact Hnames.
Qed.

Lemma report_and_graphs_classifiers_witness :
  ∃ tl,
    Driver.trace (Driver.main (Samples.world_ok Samples.ensemble_AAB)
                    Samples.args_graphs)
    = Driver.prologue
        ++ Driver.CallGraphs
             [("voting"%string, Driver.Voting Samples.ensemble_AAB);
              ("X"%string,
               Driver.Single
                 (Samples.trained ClassifierAdapter.Bayesian positive));
              ("Y"%string,
               Driver.Single
                 (Samples.trained ClassifierAdapter.MarginBased positive));
              ("Z"%string,
               Driver.Single
                 (Samples.trained ClassifierAdapter.TreeBased negative))]
             [] [] :: tl
    ∧ Forall (λ e, Driver.is_call e = false) tl.
Proof.
  refine (proj1 (report_and_graphs_classifiers
                   (Samples.world_ok Samples.ensemble_AAB) Samples.args_graphs
                   (Driver.mkSentiment Samples.ensemble_AAB) _ _ _ _)).
  - reflexivity.
  - reflexivity.
  - right. reflexivity.
  - compute_done.
Defined.

(** ** The vocabulary *)

Section Vocabulary.
Import FeatureSpace.
Implicit Types (ws l : list string) (w x : string).

Lemma first_pos_head w ws : first_pos w (w :: ws) = 0.
Proof. simpl. rewrite decide_True by reflexivity. reflexivity. Qed.

Lemma first_pos_tail w x ws :
  x ≠ w → first_pos x (w :: ws) = S (first_pos x ws).
Proof. intros Hne. simpl. rewrite decide_False by congruence. reflexivity. Qed.

Lemma filter_seen_before w ws l :
  StronglySorted (seen_before ws) l →
  StronglySorted (seen_before (w :: ws)) (filter (λ x, x ≠ w) l).
Proof.
  induction 1 as [|x l Hsorted IH Hx]; [constructor|].
  rewrite filter_cons. destruct (decide (x ≠ w)) as [Hne|_]; [|exact IH].
  constructor; [exact IH|].
  apply Forall_forall. intros z Hz.
  apply list_elem_of_filter in Hz as [Hzw Hz].
  rewrite Forall_forall in Hx. specialize (Hx z Hz).
  unfold seen_before in *. rewrite !first_pos_tail by assumption. lia.
Qed.

(** The distinct words are listed in first-seen order. *)
Lemma distinct_seen_before ws :
  StronglySorted (seen_before ws) (distinct ws).
Proof.
  induction ws as [|w ws IH]; [constructor|].
  cbn [distinct]. constructor.
  - apply filter_seen_before. exact IH.
  - apply Forall_forall. intros z Hz.
    apply list_elem_of_filter in Hz as [Hzw _].
    unfold seen_before. rewrite first_pos_head, first_pos_tail by assumption.
    lia.
Qed.

Lemma insert_ranked_Permutation ws w l : insert_ranked ws w l ≡ₚ w :: l.
Proof.
  induction l as [|x l IH]; [reflexivity|].
  cbn [insert_ranked]. destruct (count x ws <=? count w ws); [reflexivity|].
  rewrite IH. apply Permutation_swap.
Qed.

Lemma rank_Permutation ws l : rank ws l ≡ₚ l.
Proof.
  induction l as [|x l IH]; [reflexivity|].
  unfold rank in *. cbn [foldr].
  rewrite insert_ranked_Permutation, IH. reflexivity.
Qed.

(** Inserting a word that was seen before all the ranked ones keeps the
    ranking sorted. *)
Lemma insert_ranked_sorted ws w l :
  StronglySorted (outranks ws) l →
  Forall (seen_before ws w) l →
  StronglySorted (outranks ws) (insert_ranked ws w l).
Proof.
  induction 1 as [|x l Hsorted IH Hx]; intros Hseen.
  - repeat constructor.
  - apply Forall_cons in Hseen as [Hwx Hwl].
    cbn [insert_ranked]. destruct (count x ws <=? count w ws) eqn:Hcmp.
    + apply Nat.leb_le in Hcmp.
      constructor; [constructor; assumption|].
      apply Forall_cons. split.
      * unfold outranks, seen_before in *. lia.
      * rewrite Forall_forall in Hx, Hwl |- *. intros z Hz.
        specialize (Hx z Hz). specialize (Hwl z Hz).
        unfold outranks, seen_before in *. lia.
    + apply Nat.leb_gt in Hcmp.
      constructor; [apply IH; exact Hwl|].
      rewrite insert_ranked_Permutation.
      apply Forall_cons. split; [|exact Hx].
      unfold outranks. lia.
Qed.

Lemma rank_sorted ws l :
  StronglySorted (seen_before ws) l →
  StronglySorted (outranks ws) (rank ws l).
Proof.
  induction 1 as [|x l Hsorted IH Hx]; [constructor|].
  unfold rank in *. cbn [foldr]. apply insert_ranked_sorted; [exact IH|].
  fold (rank ws l). rewrite rank_Permutation. exact Hx.
Qed.

(** The vocabulary that [build] computes is one the specification
    describes. *)
Lemma build_IsVocabulary corpus N : IsVocabulary corpus N (build corpus N).
Proof.
  exists (rank (corpus_words corpus) (distinct (corpus_words corpus))).
  split; [apply rank_Permutation|]. split; [|reflexivity].
  apply rank_sorted, distinct_seen_before.
Qed.

Lemma outranks_asymmetric ws a b : outranks ws a b → outranks ws b a → a = b.
Proof. unfold outranks. lia. Qed.

(** The specification describes one vocabulary only. *)
Lemma IsVocabulary_unique corpus N v1 v2 :
  IsVocabulary corpus N v1 → IsVocabulary corpus N v2 → v1 = v2.
Proof.
  intros (r1 & Hp1 & Hs1 & ->) (r2 & Hp2 & Hs2 & ->). f_equal.
  apply (StronglySorted_unique_strong (outranks (corpus_words corpus)));
    [|assumption..|].
  - intros x1 x2 _ _. apply outranks_asymmetric.
  - rewrite Hp1, Hp2. reflexivity.
Qed.
End Vocabulary.

(** C8: [FeatureSpace.build] is deterministic: for every corpus and
    positive N, any two runs that yield a vocabulary as specified yield
    the vocabulary that [build] computes, with the same index for every
    word. *)
Theorem build_deterministic (corpus : list FeatureSpace.Document) (N : nat) :
  0 < N →
  FeatureSpace.IsVocabulary corpus N (FeatureSpace.build corpus N)
  ∧ ∀ v1 v2,
      FeatureSpace.IsVocabulary corpus N v1 →
      FeatureSpace.IsVocabulary corpus N v2 →
      v1 = v2
      ∧ v1 = FeatureSpace.build corpus N
      ∧ ∀ w, FeatureSpace.index_of w v1 = FeatureSpace.index_of w v2.
Proof.
  intros _. split; [apply build_IsVocabulary|].
  intros v1 v2 H1 H2.
  assert (v1 = v2) as <- by (eapply IsVocabulary_unique; eassumption).
  split; [reflexivity|]. split; [|reflexivity].
  eapply IsVocabulary_unique; [exact H1|apply build_IsVocabulary].
Qed.

Lemma build_deterministic_witness :
  0 < 3
  ∧ FeatureSpace.build Samples.corpus 3 = ["good"; "bad"; "great"]%string
  ∧ FeatureSpace.IsVocabulary Samples.corpus 3 ["good"; "bad"; "great"]%string.
Proof.
  assert (HN : 0 < 3) by lia.
  destruct (build_deterministic Samples.corpus 3 HN) as [Hbuild _].
  split; [exact HN|]. split; [vm_compute; reflexivity|]. exact Hbuild.
Defined.

(** * The commands in detail *)

(** ** Loops that stop at the first exception *)

Section Loops.
Import Driver Observe.
Context {A : Type}.
Implicit Types (body : A → Run unit) (l pre post : list A).

Lemma for_each_app_ok body pre post :
  outcome (for_each body pre) = inr () →
  trace (for_each body (pre ++ post))
  = trace (for_each body pre) ++ trace (for_each body post)
  ∧ outcome (for_each body (pre ++ post)) = outcome (for_each body post).
Proof.
  induction pre as [|a pre IH]; intros Hok.
  - split; reflexivity.
  - cbn [for_each app]. cbn [for_each] in Hok. rewrite outcome_bind in Hok.
    rewrite !trace_bind, !outcome_bind.
    destruct (outcome (body a)) as [st|[]]; [discriminate|].
    destruct (IH Hok) as [-> ->]. rewrite app_assoc. split; reflexivity.
Qed.

Lemma for_each_all_ok body l :
  (∀ a, a ∈ l → outcome (body a) = inr ()) →
  outcome (for_each body l) = inr ().
Proof.
  induction l as [|a l IH]; intros Hbody; [reflexivity|].
  cbn [for_each]. rewrite outcome_bind, (Hbody a) by left.
  apply IH. intros a' Ha'. apply Hbody. right. exact Ha'.
Qed.

(** A loop whose iteration [a] stops, after iterations that all
    returned, runs nothing after [a] and stops the same way. *)
Lemma for_each_stops body pre a post st :
  (∀ x, x ∈ pre → outcome (body x) = inr ()) →
  outcome (body a) = inl st →
  trace (for_each body (pre ++ a :: post))
  = trace (for_each body pre) ++ trace (body a)
  ∧ outcome (for_each body (pre ++ a :: post)) = inl st.
Proof.
  intros Hpre Ha.
  destruct (for_each_app_ok body pre (a :: post)) as [-> ->];
    [apply for_each_all_ok; exact Hpre|].
  cbn [for_each]. rewrite trace_bind, outcome_bind, Ha, app_nil_r.
  split; reflexivity.
Qed.

(** What is observed of a loop whose iterations each return and show
    one observation. *)
Lemma for_each_observed {B} (obs : Event → option B) body (lab : A → B) l :
  (∀ a, a ∈ l → outcome (body a) = inr ()
                ∧ omap obs (trace (body a)) = [lab a]) →
  outcome (for_each body l) = inr ()
  ∧ omap obs (trace (for_each body l)) = lab <$> l.
Proof.
  induction l as [|a l IH]; intros Hbody; [split; reflexivity|].
  destruct (Hbody a) as [Hok Hlab]; [left|].
  destruct IH as [IHok IHlab].
  { intros a' Ha'. apply Hbody. right. exact Ha'. }
  cbn [for_each]. rewrite trace_bind, outcome_bind, Hok. split; [exact IHok|].
  rewrite omap_app, Hlab, IHlab. reflexivity.
Qed.

(** What is observed of a loop whose iterations each show one
    observation, whether or not they return: the observations of the
    iterations that ran, in order. *)
Lemma for_each_observed_prefix {B} (obs : Event → option B) body
    (lab : A → B) l :
  (∀ a, a ∈ l → omap obs (trace (body a)) = [lab a]) →
  omap obs (trace (for_each body l)) `prefix_of` (lab <$> l).
Proof.
  induction l as [|a l IH]; intros Hbody; [reflexivity|].
  cbn [for_each]. rewrite trace_bind, omap_app, (Hbody a) by left.
  cbn [fmap list_fmap app]. apply prefix_cons.
  destruct (outcome (body a)).
  - apply prefix_nil.
  - apply IH. intros a' Ha'. apply Hbody. right. exact Ha'.
Qed.

Lemma omap_none {B} (obs : Event → option B) (t : list Event) :
  Forall (λ e, obs e = None) t → omap obs t = [].
Proof.
  induction 1 as [|e t He _ IH]; [reflexivity|].
  cbn [omap list_omap]. rewrite He. exact IH.
Qed.

Lemma for_each_no_sys_exit body l :
  (∀ a, no_sys_exit (body a)) → no_sys_exit (for_each body l).
Proof.
  intros Hbody. induction l as [|a l IH]; intros code; [discriminate|].
  cbn [for_each]. rewrite outcome_bind.
  destruct (outcome (body a)) as [st|[]] eqn:Ha.
  - rewrite <- Ha. apply Hbody.
  - apply IH.
Qed.
End Loops.

(** ** [do_report] and [_dump_metrics] *)

Section Report.
Import Driver Observe.
Implicit Types (classifiers pre post : list (string * Classifier))
  (X : list FeatureVector) (y : list Label).

Lemma dump_metrics_returns label clf X y y_pred :
  classifier_predict clf X = inr y_pred →
  _dump_metrics label clf X y
  = ([PrintLine ("SUMMARY FOR CLASSIFIER: " +:+ label);
      Predict label clf X; DumpMetrics label y y_pred], inr ()).
Proof.
  intros Hp. unfold _dump_metrics, call_predict.
  rewrite bind_emit. cbn [trace outcome fst snd].
  rewrite (run_eta (_ ≫= _)), trace_bind, outcome_bind, bind_emit, Hp.
  reflexivity.
Qed.

Lemma dump_metrics_raises label clf X y e :
  classifier_predict clf X = inl e →
  _dump_metrics label clf X y
  = ([PrintLine ("SUMMARY FOR CLASSIFIER: " +:+ label);
      Predict label clf X], inl (Raised e)).
Proof.
  intros Hp. unfold _dump_metrics, call_predict.
  rewrite bind_emit. cbn [trace outcome fst snd].
  rewrite (run_eta (_ ≫= _)), trace_bind, outcome_bind, bind_emit, Hp.
  reflexivity.
Qed.

Lemma report_loop_returns classifiers X y :
  Forall (predict_returns X) classifiers →
  outcome (for_each (λ p, _dump_metrics p.1 p.2 X y) classifiers) = inr ()
  ∧ predicted (trace (for_each (λ p, _dump_metrics p.1 p.2 X y) classifiers))
    = classifiers.*1
  ∧ dumped (trace (for_each (λ p, _dump_metrics p.1 p.2 X y) classifiers))
    = classifiers.*1.
Proof.
  intros Hall. rewrite Forall_forall in Hall.
  split; [|split].
  - apply for_each_all_ok. intros p Hp. destruct (Hall p Hp) as [y_pred Hy].
    rewrite (dump_metrics_returns _ _ _ _ _ Hy). reflexivity.
  - apply (for_each_observed predict_label _ fst). intros p Hp.
    destruct (Hall p Hp) as [y_pred Hy].
    rewrite (dump_metrics_returns _ _ _ _ _ Hy). split; reflexivity.
  - apply (for_each_observed metrics_label _ fst). intros p Hp.
    destruct (Hall p Hp) as [y_pred Hy].
    rewrite (dump_metrics_returns _ _ _ _ _ Hy). split; reflexivity.
Qed.

(** [do_report], when every [predict] returns, calls [predict] once per
    classifier in list order, always on the samples it was given, prints
    one summary per classifier and returns. *)
Theorem do_report_scores_every_classifier classifiers X y :
  Forall (predict_returns X) classifiers →
  outcome (do_report classifiers X y) = inr ()
  ∧ predicted (trace (do_report classifiers X y)) = classifiers.*1
  ∧ dumped (trace (do_report classifiers X y)) = classifiers.*1
  ∧ (∀ label clf X', Predict label clf X' ∈ trace (do_report classifiers X y) →
       X' = X ∧ (label, clf) ∈ classifiers).
Proof.
  intros Hall.
  destruct (report_loop_returns classifiers X y Hall) as (Hok & Hpred & Hdump).
  unfold do_report. rewrite !bind_emit. cbn [trace outcome fst snd].
  split; [exact Hok|]. split; [exact Hpred|]. split; [exact Hdump|].
  intros label clf X' Hin.
  do 3 (apply elem_of_cons in Hin as [?|Hin]; [discriminate|]).
  assert (Hloop : Forall (λ e, ∀ label clf X', e = Predict label clf X' →
                           X' = X ∧ (label, clf) ∈ classifiers)
                    (trace (for_each (λ p, _dump_metrics p.1 p.2 X y)
                              classifiers))).
  { apply for_each_trace_Forall. intros [l c] Hp.
    rewrite Forall_forall in Hall. destruct (Hall _ Hp) as [y_pred Hy].
    rewrite (dump_metrics_returns _ _ _ _ _ Hy). cbn [trace fst].
    repeat (apply Forall_cons; split); [| |  |constructor];
      intros ? ? ? Heq; try discriminate.
    injection Heq as <- <- <-. split; [reflexivity|exact Hp]. }
  rewrite Forall_forall in Hloop. eapply Hloop; [exact Hin|reflexivity].
Qed.

Lemma do_report_scores_every_classifier_witness :
  predicted (trace (do_report Samples.five_classifiers [[true]] [positive]))
  = ["voting"; "a"; "b"; "c"; "d"]%string.
Proof.
  refine (proj1 (proj2 (do_report_scores_every_classifier
                          Samples.five_classifiers [[true]] [positive] _))).
  repeat (apply Forall_cons; split; [eexists; reflexivity|]). constructor.
Defined.

(** [do_report] stops at the first classifier whose [predict] raises:
    the error escapes, the classifiers before it were scored, and no
    later classifier is touched. *)
Theorem do_report_stops_at_first_error pre label clf post X y e :
  Forall (predict_returns X) pre →
  classifier_predict clf X = inl e →
  outcome (do_report (pre ++ (label, clf) :: post) X y) = inl (Raised e)
  ∧ predicted (trace (do_report (pre ++ (label, clf) :: post) X y))
    = pre.*1 ++ [label]
  ∧ dumped (trace (do_report (pre ++ (label, clf) :: post) X y)) = pre.*1.
Proof.
  intros Hpre Hclf.
  destruct (report_loop_returns pre X y Hpre) as (Hok & Hpred & Hdump).
  destruct (for_each_stops (λ p, _dump_metrics p.1 p.2 X y) pre (label, clf)
              post (Raised e)) as [Htrace Hout].
  { intros p Hp. rewrite Forall_forall in Hpre.
    destruct (Hpre p Hp) as [y_pred Hy].
    rewrite (dump_metrics_returns _ _ _ _ _ Hy). reflexivity. }
  { rewrite (dump_metrics_raises _ _ _ _ _ Hclf). reflexivity. }
  unfold do_report. rewrite !bind_emit. cbn [trace outcome fst snd].
  rewrite Htrace, Hout. cbn [fst snd].
  rewrite (dump_metrics_raises _ _ _ _ _ Hclf). cbn [trace fst].
  unfold predicted, dumped in *. cbn [omap list_omap predict_label metrics_label].
  rewrite !omap_app, Hpred, Hdump. cbn [omap list_omap predict_label metrics_label].
  rewrite app_nil_r. repeat split; reflexivity.
Qed.

Lemma do_report_stops_at_first_error_witness :
  outcome (do_report
             [("voting"%string, Voting Samples.ensemble_AB);
              ("X"%string,
               Single (ClassifierAdapter.create ClassifierAdapter.Bayesian []));
              ("Y"%string,
               Single (Samples.trained ClassifierAdapter.TreeBased negative))]
             [[true]] [positive])
  = inl (Raised NotTrainedError).
Proof.
  refine (proj1 (do_report_stops_at_first_error
                   [("voting"%string, Voting Samples.ensemble_AB)]
                   "X" (Single (ClassifierAdapter.create
                                  ClassifierAdapter.Bayesian []))
                   [("Y"%string,
                     Single (Samples.trained ClassifierAdapter.TreeBased
                               negative))]
                   [[true]] [positive] NotTrainedError _ _)).
  - repeat (apply Forall_cons; split; [eexists; reflexivity|]). constructor.
  - reflexivity.
Defined.
End Report.

(** ** [do_graphs] *)

Section Graphs.
Import Driver Observe.
Implicit Types (classifiers : list (string * Classifier))
  (X : list FeatureVector) (y : list Label).

Lemma subplots_returns rows cols :
  0 < rows → 0 < cols →
  subplots rows cols = ([Subplots rows cols], inr (axes_grid rows cols)).
Proof.
  intros Hr Hc. unfold subplots. rewrite bind_emit.
  destruct rows; [lia|]. destruct cols; [lia|]. reflexivity.
Qed.

Lemma predict_emit_returns label clf X (f : list Label → Event) y_pred :
  classifier_predict clf X = inr y_pred →
  (call_predict label clf X ≫= λ yp, emit (f yp))
  = ([Predict label clf X; f y_pred], inr ()).
Proof.
  intros Hp. unfold call_predict.
  rewrite (run_eta (_ ≫= _)), trace_bind, outcome_bind, bind_emit, Hp.
  reflexivity.
Qed.

Lemma predict_roc_returns w label clf X y y_pred :
  classifier_predict clf X = inr y_pred →
  roc_curve w y y_pred = inr () →
  (call_predict label clf X
     ≫= λ yp, lift (roc_curve w y yp);; emit (PlotRoc label y yp))
  = ([Predict label clf X; PlotRoc label y y_pred], inr ()).
Proof.
  intros Hp Hroc. unfold call_predict. rewrite Hp.
  cbn. rewrite Hroc. reflexivity.
Qed.

(** The position of the [k]-th axis of [axs.flat]: row [k / cols],
    column [k mod cols]. *)
Lemma flat_grid_rows_lookup first rows cols k :
  k < rows * cols →
  flat (grid_rows first rows cols) !! k
  = Some (first + k / cols, k mod cols).
Proof.
  revert first k. induction rows as [|rows IH]; intros first k Hk; [lia|].
  assert (Hc : cols ≠ 0) by lia.
  unfold flat, grid_rows in *. cbn [seq fmap list_fmap concat].
  destruct (decide (k < cols)) as [Hlt|Hge].
  - rewrite lookup_app_l by (rewrite length_fmap, length_seq; exact Hlt).
    rewrite list_lookup_fmap, lookup_seq_lt by exact Hlt.
    rewrite Nat.div_small, Nat.mod_small by exact Hlt.
    cbn. rewrite Nat.add_0_r. reflexivity.
  - rewrite lookup_app_r by (rewrite length_fmap, length_seq; lia).
    rewrite length_fmap, length_seq, IH by lia.
    replace k with ((k - cols) + 1 * cols) at 3 4 by lia.
    rewrite Nat.div_add, Nat.Div0.mod_add by exact Hc.
    do 2 f_equal. lia.
Qed.

Lemma confusion_pass_returns (pairs : list (Axes * (string * Classifier)))
    X y :
  Forall (predict_returns X) pairs.*2 →
  outcome (confusion_pass X y pairs) = inr ()
  ∧ predicted (trace (confusion_pass X y pairs)) = (pairs.*2).*1
  ∧ confusion_plots (trace (confusion_pass X y pairs))
    = (λ p, (p.2.1, p.1)) <$> pairs.
Proof.
  intros Hall. unfold confusion_pass.
  assert (Hbody : ∀ p, p ∈ pairs → ∃ y_pred,
            (call_predict p.2.1 p.2.2 X
               ≫= λ yp, emit (PlotConfusionMatrix p.2.1 p.1 y yp))
            = ([Predict p.2.1 p.2.2 X;
                PlotConfusionMatrix p.2.1 p.1 y y_pred], inr ())).
  { intros p Hp. rewrite Forall_forall in Hall.
    destruct (Hall p.2) as [y_pred Hy]; [apply list_elem_of_fmap; eauto|].
    exists y_pred. apply predict_emit_returns. exact Hy. }
  split; [|split].
  - apply for_each_all_ok. intros p Hp.
    destruct (Hbody p Hp) as [y_pred ->]. reflexivity.
  - rewrite <- list_fmap_compose.
    apply (for_each_observed predict_label _ (fst ∘ snd)). intros p Hp.
    destruct (Hbody p Hp) as [y_pred ->]. split; reflexivity.
  - apply (for_each_observed confusion_plot _ (λ p, (p.2.1, p.1))).
    intros p Hp. destruct (Hbody p Hp) as [y_pred ->]. split; reflexivity.
Qed.

Lemma roc_pass_confusion_plots w classifiers X y :
  confusion_plots (trace (roc_pass w X y classifiers)) = [].
Proof.
  apply omap_none. unfold roc_pass. trace_forall; reflexivity.
Qed.

Lemma roc_pass_returns w classifiers X y :
  Forall (predict_returns X) classifiers →
  Forall (roc_returns w X y) classifiers →
  outcome (roc_pass w X y classifiers) = inr ()
  ∧ predicted (trace (roc_pass w X y classifiers)) = classifiers.*1.
Proof.
  intros Hall Hroc. unfold roc_pass.
  rewrite Forall_forall in Hall. rewrite Forall_forall in Hroc.
  assert (Hbody : ∀ p, p ∈ classifiers → ∃ y_pred,
            (call_predict p.1 p.2 X
               ≫= λ yp, lift (roc_curve w y yp);; emit (PlotRoc p.1 y yp))
            = ([Predict p.1 p.2 X; PlotRoc p.1 y y_pred], inr ())).
  { intros p Hp. destruct (Hall p Hp) as [y_pred Hy].
    exists y_pred. apply predict_roc_returns; [exact Hy|].
    apply (Hroc p Hp). exact Hy. }
  split.
  - apply for_each_all_ok. intros p Hp.
    destruct (Hbody p Hp) as [y_pred ->]. reflexivity.
  - apply (for_each_observed predict_label _ fst). intros p Hp.
    destruct (Hbody p Hp) as [y_pred ->]. split; reflexivity.
Qed.

(** The run of [do_graphs] on a non-empty list: the grid, the pass over
    the zipped pairs, and, when that pass returns, the ROC pass. *)
Lemma do_graphs_shape w classifiers X y :
  classifiers ≠ [] →
  let rows := ceil_div (length classifiers) subplots_cols in
  let pass1 :=
    confusion_pass X y
      (graph_data (axes_grid rows subplots_cols) classifiers) in
  let pass2 := roc_pass w X y classifiers in
  do_graphs w classifiers X y
  = (CallGraphs classifiers X y :: LogPlotDimensions rows subplots_cols
       :: Subplots rows subplots_cols
       :: trace pass1
       ++ match outcome pass1 with
          | inl _ => []
          | inr _ =>
              PltShow :: trace pass2
                ++ match outcome pass2 with
                   | inl _ => []
                   | inr _ => [PltShow]
                   end
          end,
     match outcome pass1 with
     | inl st => inl st
     | inr _ =>
         match outcome pass2 with
         | inl st => inl st
         | inr _ => inr ()
         end
     end)
  ∧ (graph_data (axes_grid rows subplots_cols) classifiers).*2 = classifiers.
Proof.
  intros Hne rows pass1 pass2.
  assert (Hn : 0 < length classifiers).
  { destruct classifiers; [congruence|simpl; lia]. }
  pose proof (ceil_div_4_bounds (length classifiers)) as [Hlo Hhi].
  change (ceil_div (length classifiers) 4) with rows in Hlo, Hhi.
  split.
  2:{ unfold graph_data. apply snd_zip. rewrite flat_axes_grid_length.
      unfold subplots_cols. lia. }
  assert (Hsub : subplots rows subplots_cols
                 = ([Subplots rows subplots_cols],
                    inr (axes_grid rows subplots_cols))).
  { apply subplots_returns; unfold subplots_cols; lia. }
  rewrite (run_eta (do_graphs w classifiers X y)).
  unfold do_graphs. fold rows.
  change (for_each
            (λ p, y_pred ← call_predict p.1 p.2 X;
                  lift (roc_curve w y y_pred);; emit (PlotRoc p.1 y y_pred))
            classifiers) with pass2.
  destruct (outcome pass1) as [st1|[]] eqn:H1;
    [|destruct (outcome pass2) as [st2|[]] eqn:H2];
    f_equal;
    repeat first
      [ rewrite trace_bind | rewrite outcome_bind | rewrite Hsub
      | progress change
          (for_each
             (λ p, y_pred ← call_predict p.2.1 p.2.2 X;
                   emit (PlotConfusionMatrix p.2.1 p.1 y y_pred))
             (graph_data (axes_grid rows subplots_cols) classifiers))
          with pass1
      | rewrite H1 | rewrite H2
      | progress cbn [trace outcome fst snd emit app] ];
    rewrite ?app_nil_r; reflexivity.
Qed.

(** The confusion matrices [do_graphs] draws when every [predict]
    returns: one per zipped pair, on the axis of the pair. *)
Lemma do_graphs_confusion_plots w classifiers X y :
  classifiers ≠ [] →
  Forall (predict_returns X) classifiers →
  confusion_plots (trace (do_graphs w classifiers X y))
  = (λ p, (p.2.1, p.1))
      <$> graph_data
            (axes_grid (ceil_div (length classifiers) subplots_cols)
               subplots_cols) classifiers.
Proof.
  intros Hne Hall.
  pose proof (do_graphs_shape w classifiers X y Hne) as Hrun.
  cbn zeta in Hrun. destruct Hrun as [Hrun Hsnd]. rewrite Hrun.
  cbn [trace fst].
  destruct (confusion_pass_returns
              (graph_data
                 (axes_grid (ceil_div (length classifiers) subplots_cols)
                    subplots_cols) classifiers) X y)
    as (Hok & _ & Hplots); [rewrite Hsnd; exact Hall|].
  rewrite Hok. unfold confusion_plots in *.
  cbn [omap list_omap confusion_plot].
  rewrite omap_app, Hplots. cbn [omap list_omap confusion_plot].
  rewrite omap_app.
  fold (confusion_plots (trace (roc_pass w X y classifiers))).
  rewrite roc_pass_confusion_plots.
  destruct (outcome (roc_pass w X y classifiers));
    cbn [omap list_omap confusion_plot app]; rewrite app_nil_r; reflexivity.
Qed.

(** C9: in [do_graphs], for a non-empty classifier list of length n the
    grid asked of [plt.subplots] has 4 columns and ceil(n/4) rows, so it
    holds at least n axes; the first loop runs over the zip of the
    flattened axes with the classifiers, which keeps every classifier
    and gives each an axis of its own, so that every classifier gets its
    confusion matrix on a distinct axis. *)
Theorem graph_grid_covers_classifiers w classifiers X y :
  classifiers ≠ [] →
  let n := length classifiers in
  let rows := ceil_div n subplots_cols in
  let axs := axes_grid rows subplots_cols in
  subplots_cols = 4
  ∧ (n ≤ 4 * rows ∧ 4 * rows < n + 4)
  ∧ (∃ tl,
       trace (do_graphs w classifiers X y)
       = CallGraphs classifiers X y :: LogPlotDimensions rows 4
           :: Subplots rows 4
           :: trace (confusion_pass X y (graph_data axs classifiers)) ++ tl)
  ∧ length (flat axs) = 4 * rows
  ∧ length (graph_data axs classifiers) = n
  ∧ (graph_data axs classifiers).*2 = classifiers
  ∧ NoDup (graph_data axs classifiers).*1
  ∧ (Forall (predict_returns X) classifiers →
     (confusion_plots (trace (do_graphs w classifiers X y))).*1
     = classifiers.*1
     ∧ NoDup (confusion_plots (trace (do_graphs w classifiers X y))).*2).
Proof.
  intros Hne n rows axs.
  assert (Hn : 0 < n).
  { subst n. destruct classifiers; [congruence|simpl; lia]. }
  pose proof (ceil_div_4_bounds n) as [Hlo Hhi].
  change (ceil_div n 4) with rows in Hlo, Hhi.
  assert (Hflat : length (flat axs) = 4 * rows).
  { subst axs. rewrite flat_axes_grid_length. unfold subplots_cols. lia. }
  pose proof (do_graphs_shape w classifiers X y Hne) as Hrun.
  cbn zeta in Hrun. destruct Hrun as [Hrun Hsnd].
  assert (Hfst : NoDup (graph_data axs classifiers).*1).
  { unfold graph_data. rewrite <- zip_with_take_l. rewrite fst_zip.
    - eapply sublist_NoDup; [|apply sublist_take].
      apply flat_axes_grid_NoDup.
    - rewrite length_take. lia. }
  split; [reflexivity|]. split; [split; assumption|]. split.
  { rewrite Hrun. cbn [trace fst]. eexists. reflexivity. }
  split; [exact Hflat|]. split.
  { unfold graph_data. rewrite length_zip_with. lia. }
  split; [exact Hsnd|]. split; [exact Hfst|].
  intros Hall.
  rewrite (do_graphs_confusion_plots w classifiers X y Hne Hall).
  fold n rows axs. rewrite <- !list_fmap_compose. split.
  - rewrite <- Hsnd at 2. rewrite <- list_fmap_compose. reflexivity.
  - exact Hfst.
Qed.

Lemma graph_grid_covers_classifiers_witness :
  ceil_div (length Samples.five_classifiers) 4 = 2
  ∧ (confusion_plots
       (trace (do_graphs (Samples.world_ok Samples.ensemble_AB)
                 Samples.five_classifiers [[true]] [positive]))).*1
    = ["voting"; "a"; "b"; "c"; "d"]%string.
Proof.
  split; [vm_compute; reflexivity|].
  refine (proj1 (proj2 (proj2 (proj2 (proj2 (proj2 (proj2 (proj2
            (graph_grid_covers_classifiers
               (Samples.world_ok Samples.ensemble_AB)
               Samples.five_classifiers [[true]] [positive] _))))))) _)).
  - discriminate.
  - repeat (apply Forall_cons; split; [eexists; reflexivity|]). constructor.
Defined.

(** [do_graphs] on a non-empty list, when every [predict] and every
    [roc_curve] returns, calls [predict] twice on every classifier: once
    per classifier, in list order, for the confusion matrices, then once
    more per classifier, in list order, for the ROC curves. *)
Theorem do_graphs_predicts_twice w classifiers X y :
  classifiers ≠ [] →
  Forall (predict_returns X) classifiers →
  Forall (roc_returns w X y) classifiers →
  outcome (do_graphs w classifiers X y) = inr ()
  ∧ predicted (trace (do_graphs w classifiers X y))
    = classifiers.*1 ++ classifiers.*1.
Proof.
  intros Hne Hall Hroc.
  pose proof (do_graphs_shape w classifiers X y Hne) as Hrun.
  cbn zeta in Hrun. destruct Hrun as [Hrun Hsnd]. rewrite Hrun.
  destruct (confusion_pass_returns
              (graph_data
                 (axes_grid (ceil_div (length classifiers) subplots_cols)
                    subplots_cols) classifiers) X y)
    as (Hok1 & Hp1 & _); [rewrite Hsnd; exact Hall|].
  destruct (roc_pass_returns w classifiers X y Hall Hroc) as (Hok2 & Hp2).
  rewrite Hsnd in Hp1. rewrite Hok1, Hok2. cbn [trace outcome fst snd].
  split; [reflexivity|].
  unfold predicted in *. cbn [omap list_omap predict_label].
  rewrite omap_app. cbn [omap list_omap predict_label].
  rewrite omap_app, Hp1, Hp2. cbn [omap list_omap predict_label].
  rewrite app_nil_r. reflexivity.
Qed.

Lemma do_graphs_predicts_twice_witness :
  predicted (trace (do_graphs (Samples.world_ok Samples.ensemble_AB)
                      Samples.five_classifiers [[true]] [positive]))
  = ["voting"; "a"; "b"; "c"; "d"; "voting"; "a"; "b"; "c"; "d"]%string.
Proof.
  refine (proj2 (do_graphs_predicts_twice
                   (Samples.world_ok Samples.ensemble_AB)
                   Samples.five_classifiers [[true]] [positive] _ _ _)).
  - discriminate.
  - repeat (apply Forall_cons; split; [eexists; reflexivity|]). constructor.
  - repeat (apply Forall_cons; split; [intros ? _; reflexivity|]). constructor.
Defined.

(** [do_graphs] draws the confusion matrix of the [i]-th classifier at
    row [i / 4], column [i mod 4] of the grid, one matrix per
    classifier. *)
Theorem do_graphs_draws_row_major w classifiers X y :
  classifiers ≠ [] →
  Forall (predict_returns X) classifiers →
  length (confusion_plots (trace (do_graphs w classifiers X y)))
  = length classifiers
  ∧ ∀ i label clf,
      classifiers !! i = Some (label, clf) →
      confusion_plots (trace (do_graphs w classifiers X y)) !! i
      = Some (label, (i / 4, i mod 4)).
Proof.
  intros Hne Hall.
  rewrite (do_graphs_confusion_plots w classifiers X y Hne Hall).
  pose proof (do_graphs_shape w classifiers X y Hne) as Hrun.
  cbn zeta in Hrun. destruct Hrun as [_ Hsnd].
  set (rows := ceil_div (length classifiers) subplots_cols) in *.
  split.
  - rewrite length_fmap. rewrite <- Hsnd at 2. rewrite length_fmap.
    reflexivity.
  - intros i label clf Hi. rewrite list_lookup_fmap.
    assert (Hlen : i < length classifiers) by (eapply lookup_lt_Some; eauto).
    pose proof (ceil_div_4_bounds (length classifiers)) as [Hlo _].
    change (ceil_div (length classifiers) 4) with rows in Hlo.
    assert (Hax : flat (axes_grid rows subplots_cols) !! i
                  = Some (i / 4, i mod 4)).
    { unfold axes_grid. rewrite flat_grid_rows_lookup
        by (unfold subplots_cols; lia). reflexivity. }
    apply fmap_Some. exists ((i / 4, i mod 4), (label, clf)).
    split; [|reflexivity].
    unfold graph_data. apply lookup_zip_Some. split; assumption.
Qed.

Lemma do_graphs_draws_row_major_witness :
  confusion_plots
    (trace (do_graphs (Samples.world_ok Samples.ensemble_AB)
              Samples.five_classifiers [[true]] [positive])) !! 4
  = Some ("d"%string, (1, 0)).
Proof.
  refine (proj2 (do_graphs_draws_row_major
                   (Samples.world_ok Samples.ensemble_AB)
                   Samples.five_classifiers [[true]] [positive] _ _)
            4 "d"%string
            (Single (Samples.trained ClassifierAdapter.Bayesian negative))
            eq_refl).
  - discriminate.
  - repeat (apply Forall_cons; split; [eexists; reflexivity|]). constructor.
Defined.

(** [do_graphs] on an empty list asks for a grid of zero rows: the
    [ValueError] of [plt.subplots] escapes before anything is drawn. *)
Theorem do_graphs_empty_raises w X y :
  do_graphs w [] X y
  = ([CallGraphs [] X y; LogPlotDimensions 0 4; Subplots 0 4],
     inl (Raised ValueError)).
Proof. reflexivity. Qed.
End Graphs.

(** ** Only [__main__] exits *)

Section NoSysExit.
Import Driver Observe.

Lemma bind_no_sys_exit {A B} (m : Run A) (k : A → Run B) :
  no_sys_exit m → (∀ a, no_sys_exit (k a)) → no_sys_exit (m ≫= k).
Proof.
  intros Hm Hk code. rewrite outcome_bind.
  destruct (outcome m) as [st|a] eqn:Hout.
  - intros Heq. injection Heq as ->. exact (Hm code Hout).
  - apply Hk.
Qed.

Lemma emit_no_sys_exit e : no_sys_exit (emit e).
Proof. intros code. discriminate. Qed.

Lemma lift_no_sys_exit {A} (r : Result A) : no_sys_exit (lift r).
Proof. intros code. destruct r; discriminate. Qed.

Lemma call_predict_no_sys_exit label clf X :
  no_sys_exit (call_predict label clf X).
Proof.
  apply bind_no_sys_exit; [apply emit_no_sys_exit|].
  intros _. apply lift_no_sys_exit.
Qed.

Lemma predict_emit_no_sys_exit label clf X (f : list Label → Event) :
  no_sys_exit (call_predict label clf X ≫= λ y_pred, emit (f y_pred)).
Proof.
  apply bind_no_sys_exit; [apply call_predict_no_sys_exit|].
  intros y_pred. apply emit_no_sys_exit.
Qed.

Ltac no_exit :=
  repeat first
    [ apply bind_no_sys_exit
    | apply emit_no_sys_exit
    | apply lift_no_sys_exit
    | apply for_each_no_sys_exit
    | intros ? ].


Lemma do_graphs_no_sys_exit w classifiers X y :
  no_sys_exit (do_graphs w classifiers X y).
Proof.
  unfold do_graphs.
  repeat (apply bind_no_sys_exit; [apply emit_no_sys_exit|intros _]).
  apply bind_no_sys_exit.
  { unfold subplots. apply bind_no_sys_exit; [apply emit_no_sys_exit|].
    intros _. destruct (_ || _); [apply lift_no_sys_exit|discriminate]. }
  no_exit.
Qed.



Lemma then_exit_not_returned (r : Stop + unit) : then_exit r ≠ inr ().
Proof. destruct r; discriminate. Qed.
End NoSysExit.

(** ** The commands of [__main__] *)

Section MainCommands.
Import Driver Observe.

Lemma commands_none t :
  Forall (λ e, is_call e = false) t → commands t = [].
Proof.
  unfold commands. induction 1 as [|e t He _ IH]; [reflexivity|].
  rewrite filter_cons, decide_False by congruence. exact IH.
Qed.

Lemma commands_after_prologue c tl :
  is_call c = true →
  Forall (λ e, is_call e = false) tl →
  commands (prologue ++ c :: tl) = [c].
Proof.
  intros Hc Htl. unfold commands.
  rewrite filter_app, filter_cons, decide_True by exact Hc.
  fold (commands tl). rewrite (commands_none tl Htl). reflexivity.
Qed.

Lemma scoring_no_call t : Forall scoring t → Forall (λ e, is_call e = false) t.
Proof. intros Ht. eapply Forall_impl; [exact Ht|]. intros e [_ He]. exact He. Qed.

Lemma fitting_no_call t : Forall fitting t → Forall (λ e, is_call e = false) t.
Proof. intros Ht. eapply Forall_impl; [exact Ht|]. intros e [_ He]. exact He. Qed.

(** The whole run when no command flag is given. *)
Lemma main_train_run w args s :
  features args = false →
  new_sentiment w "voting.yaml" = inr s →
  report args = false →
  graphs args = false →
  learning args = false →
  main w args
  = (prologue
       ++ [Log "Creating classifiers...";
           InitClassifiers (train_part (get_samples w).1)
                           (train_part (get_samples w).2)]
       ++ match init_classifiers w s (train_part (get_samples w).1)
                  (train_part (get_samples w).2) with
          | inl _ => []
          | inr _ => [Log "Done."]
          end,
     match init_classifiers w s (train_part (get_samples w).1)
             (train_part (get_samples w).2) with
     | inl e => inl (Raised e)
     | inr _ => inr ()
     end).
Proof.
  intros Hf Hs Hr Hg Hl. rewrite (run_eta (main w args)).
  rewrite (main_train w args s Hf Hs Hr Hg Hl). f_equal.
  unfold main. rewrite Hf, Hs, Hr, Hg, Hl.
  repeat first
    [ rewrite outcome_bind
    | progress cbn [outcome emit lift mret Run_ret run_ret snd] ].
  destruct (init_classifiers _ _ _ _) as [e|[]]; reflexivity.
Qed.

(** A run enters at most one command function, chosen by the first flag
    set in the order [--report], [--graphs], [--learning]; [--features]
    or a constructor that raises leave none to enter. *)
Theorem main_dispatches_one_command (w : World) (args : Args) :
  commands (trace (main w args))
  = if features args then []
    else match new_sentiment w "voting.yaml" with
         | inl _ => []
         | inr s =>
             let X := (get_samples w).1 in
             let y := (get_samples w).2 in
             if report args then
               [CallReport (all_classifiers s) (drop 1900 X) (drop 1900 y)]
             else if graphs args then
               [CallGraphs (all_classifiers s) (drop 1900 X) (drop 1900 y)]
             else if learning args then
               [CallLearningCurve (sub_classifier_items s) X y]
             else []
         end.
Proof.
  destruct (features args) eqn:Hf.
  { rewrite main_features by exact Hf. cbn [trace fst].
    apply commands_none. repeat (apply Forall_cons; split; [reflexivity|]).
    apply Forall_fmap, Forall_forall. intros; reflexivity. }
  destruct (new_sentiment w "voting.yaml") as [err|s] eqn:Hs.
  { rewrite (main_config_raises w args err Hf Hs). reflexivity. }
  cbn zeta. destruct (report args) eqn:Hr.
  { rewrite (main_report w args s Hf Hs Hr). cbn [trace fst].
    destruct (do_report_trace (all_classifiers s)
                (test_part (get_samples w).1) (test_part (get_samples w).2))
      as (tl & -> & Htl).
    apply commands_after_prologue; [reflexivity|].
    apply scoring_no_call. exact Htl. }
  destruct (graphs args) eqn:Hg.
  { rewrite (main_graphs w args s Hf Hs Hr Hg). cbn [trace fst].
    destruct (do_graphs_trace w (all_classifiers s)
                (test_part (get_samples w).1) (test_part (get_samples w).2))
      as (tl & -> & Htl).
    apply commands_after_prologue; [reflexivity|].
    apply scoring_no_call. exact Htl. }
  destruct (learning args) eqn:Hl.
  { rewrite (main_learning w args s Hf Hs Hr Hg Hl). cbn [trace fst].
    destruct (do_learning_curve_trace w (sub_classifier_items s)
                (get_samples w).1 (get_samples w).2) as (tl & -> & Htl).
    apply commands_after_prologue; [reflexivity|].
    apply fitting_no_call. exact Htl. }
  rewrite (main_train w args s Hf Hs Hr Hg Hl).
  apply commands_none. rewrite app_assoc. apply Forall_app. split.
  - repeat (apply Forall_cons; split; [reflexivity|]). constructor.
  - destruct (init_classifiers _ _ _ _); repeat constructor.
Qed.



(** The driver returns normally exactly when no command flag is given,
    the ensemble is constructed and [init_classifiers] returns on the
    first 1900 samples. *)
Theorem main_returns_iff_trained (w : World) (args : Args) :
  outcome (main w args) = inr ()
  ↔ features args = false ∧ report args = false ∧ graphs args = false
    ∧ learning args = false
    ∧ ∃ s, new_sentiment w "voting.yaml" = inr s
           ∧ init_classifiers w s (take 1900 (get_samples w).1)
               (take 1900 (get_samples w).2) = inr ().
Proof.
  split.
  - intros Hret.
    destruct (features args) eqn:Hf.
    { rewrite main_features in Hret by exact Hf. discriminate. }
    destruct (new_sentiment w "voting.yaml") as [err|s] eqn:Hs.
    { rewrite (main_config_raises w args err Hf Hs) in Hret. discriminate. }
    destruct (report args) eqn:Hr.
    { rewrite (main_report w args s Hf Hs Hr) in Hret.
      destruct (then_exit_not_returned _ Hret). }
    destruct (graphs args) eqn:Hg.
    { rewrite (main_graphs w args s Hf Hs Hr Hg) in Hret.
      destruct (then_exit_not_returned _ Hret). }
    destruct (learning args) eqn:Hl.
    { rewrite (main_learning w args s Hf Hs Hr Hg Hl) in Hret.
      destruct (then_exit_not_returned _ Hret). }
    do 4 (split; [reflexivity|]). exists s. split; [reflexivity|].
    rewrite (main_train_run w args s Hf Hs Hr Hg Hl) in Hret.
    cbn [outcome snd] in Hret.
    change (take 1900) with (@train_part FeatureVector) at 1.
    change (take 1900 (get_samples w).2) with (train_part (get_samples w).2).
    destruct (init_classifiers _ _ _ _) as [e|[]]; [discriminate|reflexivity].
  - intros (Hf & Hr & Hg & Hl & s & Hs & Hinit).
    rewrite (main_train_run w args s Hf Hs Hr Hg Hl). cbn [outcome snd].
    change (take 1900 (get_samples w).1)
      with (train_part (get_samples w).1) in Hinit.
    change (take 1900 (get_samples w).2)
      with (train_part (get_samples w).2) in Hinit.
    rewrite Hinit. reflexivity.
Qed.

Lemma main_returns_iff_trained_witness :
  outcome (main (Samples.world_ok Samples.ensemble_AAB) Samples.args_none)
  = inr ().
Proof.
  apply (proj2 (main_returns_iff_trained
                  (Samples.world_ok Samples.ensemble_AAB) Samples.args_none)).
  do 4 (split; [reflexivity|]).
  exists (mkSentiment Samples.ensemble_AAB). split; reflexivity.
Defined.
End MainCommands.

(** ** Runs of [__main__], command by command *)

Section MainRuns.
Import Driver Observe.

Lemma listed_print_features (l : list (nat * string)) :
  listed ((λ p, PrintFeature p.1 p.2) <$> l) = l.
Proof.
  unfold listed. induction l as [|[i feat] l IH]; [reflexivity|].
  cbn [fmap list_fmap omap list_omap feature_line fst snd].
  f_equal. exact IH.
Qed.

(** [--features] wins over every other flag: the run lists feature [i]
    on line [i], exits with status 0, and neither constructs the
    ensemble nor loads the samples. *)
Theorem main_features_lists_and_exits (w : World) (args : Args) :
  features args = true →
  outcome (main w args) = inl (SysExit 0)
  ∧ length (listed (trace (main w args))) = length (data_features w)
  ∧ (∀ i feat, data_features w !! i = Some feat →
       listed (trace (main w args)) !! i = Some (i, feat))
  ∧ Forall (λ e, e ≠ NewSentiment "voting.yaml" ∧ e ≠ GetSamples
                 ∧ is_call e = false ∧ is_training e = false)
           (trace (main w args)).
Proof.
  intros Hf. rewrite (main_features w args Hf). cbn [trace outcome fst snd].
  split; [reflexivity|].
  assert (Hlisted :
    listed (NewMovieReviews 3000 :: PrintLine "Features:"
              :: ((λ p, PrintFeature p.1 p.2)
                    <$> imap (λ i feat, (i, feat)) (data_features w)))
    = imap (λ i feat, (i, feat)) (data_features w)).
  { change (listed ((λ p, PrintFeature p.1 p.2)
                      <$> imap (λ i feat, (i, feat)) (data_features w))
            = imap (λ i feat, (i, feat)) (data_features w)).
    apply listed_print_features. }
  rewrite Hlisted. split; [apply length_imap|]. split.
  - intros i feat Hi. rewrite list_lookup_imap, Hi. reflexivity.
  - repeat (apply Forall_cons; split;
            [repeat split; first [discriminate | reflexivity]|]).
    apply Forall_fmap, Forall_forall. intros p _.
    repeat split; first [discriminate | reflexivity].
Qed.

Lemma main_features_lists_and_exits_witness :
  listed (trace (main Samples.world_bad_config
                   (mkArgs true true true true))) !! 1
  = Some (1, "bad"%string).
Proof.
  refine (proj1 (proj2 (proj2 (main_features_lists_and_exits
                                 Samples.world_bad_config
                                 (mkArgs true true true true) eq_refl)))
            1 "bad"%string eq_refl).
Defined.

(** When [init_classifiers] raises, the error escapes the driver and
    "Done." is not logged; the call was made on the first 1900
    samples. *)
Theorem main_training_failure_escapes (w : World) (args : Args)
    (s : Sentiment) (e : Error) :
  features args = false →
  report args = false →
  graphs args = false →
  learning args = false →
  new_sentiment w "voting.yaml" = inr s →
  init_classifiers w s (take 1900 (get_samples w).1)
    (take 1900 (get_samples w).2) = inl e →
  outcome (main w args) = inl (Raised e)
  ∧ (Log "Done." ∉ trace (main w args))
  ∧ last (trace (main w args))
    = Some (InitClassifiers (take 1900 (get_samples w).1)
              (take 1900 (get_samples w).2)).
Proof.
  intros Hf Hr Hg Hl Hs Hinit.
  rewrite (main_train_run w args s Hf Hs Hr Hg Hl).
  unfold train_part, train_size. rewrite Hinit.
  cbn [trace outcome fst snd]. split; [reflexivity|]. split; [|reflexivity].
  intros Hin. unfold prologue in Hin. cbn [app] in Hin.
  repeat (apply elem_of_cons in Hin as [Heq|Hin]; [discriminate|]).
  inversion Hin.
Qed.

Lemma main_training_failure_escapes_witness :
  outcome (main Samples.world_training_fails Samples.args_none)
  = inl (Raised TrainingFailure).
Proof.
  refine (proj1 (main_training_failure_escapes Samples.world_training_fails
                   Samples.args_none (mkSentiment Samples.ensemble_untrained)
                   TrainingFailure _ _ _ _ _ _)); reflexivity.
Defined.

(** With at most 1900 samples the test slice is empty: [--report] and
    [--graphs] score the classifiers on no sample at all, and a training
    run trains on every sample. *)
Theorem main_short_sample_set (w : World) (args : Args) (s : Sentiment) :
  features args = false →
  new_sentiment w "voting.yaml" = inr s →
  length (get_samples w).1 ≤ 1900 →
  length (get_samples w).2 ≤ 1900 →
  (report args = true →
   CallReport (all_classifiers s) [] [] ∈ trace (main w args))
  ∧ (report args = false → graphs args = true →
     CallGraphs (all_classifiers s) [] [] ∈ trace (main w args))
  ∧ (report args = false → graphs args = false → learning args = false →
     InitClassifiers (get_samples w).1 (get_samples w).2
       ∈ trace (main w args)).
Proof.
  intros Hf Hs HX Hy.
  assert (HtX : test_part (get_samples w).1 = [])
    by (apply drop_ge; exact HX).
  assert (Hty : test_part (get_samples w).2 = [])
    by (apply drop_ge; exact Hy).
  assert (HrX : train_part (get_samples w).1 = (get_samples w).1)
    by (apply take_ge; exact HX).
  assert (Hry : train_part (get_samples w).2 = (get_samples w).2)
    by (apply take_ge; exact Hy).
  split; [|split].
  - intros Hr. rewrite (main_report w args s Hf Hs Hr). cbn [trace fst].
    rewrite HtX, Hty.
    destruct (do_report_trace (all_classifiers s) [] []) as (tl & -> & _).
    apply elem_of_app. right. left.
  - intros Hr Hg. rewrite (main_graphs w args s Hf Hs Hr Hg). cbn [trace fst].
    rewrite HtX, Hty.
    destruct (do_graphs_trace w (all_classifiers s) [] []) as (tl & -> & _).
    apply elem_of_app. right. left.
  - intros Hr Hg Hl. rewrite (main_train w args s Hf Hs Hr Hg Hl).
    rewrite HrX, Hry. apply elem_of_app. right. right. left.
Qed.

Lemma main_short_sample_set_witness :
  CallReport (all_classifiers (mkSentiment Samples.ensemble_AB)) [] []
    ∈ trace (main (Samples.world_ok Samples.ensemble_AB) Samples.args_report).
Proof.
  refine (proj1 (main_short_sample_set (Samples.world_ok Samples.ensemble_AB)
                   Samples.args_report (mkSentiment Samples.ensemble_AB)
                   _ _ _ _) _);
    first [reflexivity | vm_compute; lia].
Defined.

Lemma predicted_prologue t : predicted (prologue ++ t) = predicted t.
Proof. reflexivity. Qed.

(** A [--report] run in which every [predict] returns scores "voting"
    and then every sub-classifier in the order of the mapping, once
    each, on the samples after the first 1900, and exits with
    status 0. *)
Theorem main_report_run (w : World) (args : Args) (s : Sentiment) :
  features args = false →
  new_sentiment w "voting.yaml" = inr s →
  report args = true →
  Forall (predict_returns (drop 1900 (get_samples w).1)) (all_classifiers s) →
  outcome (main w args) = inl (SysExit 0)
  ∧ predicted (trace (main w args))
    = "voting"%string
        :: (VotingEnsemble.sub_classifiers (voting_classifier s)).*1
  ∧ dumped (trace (main w args))
    = "voting"%string
        :: (VotingEnsemble.sub_classifiers (voting_classifier s)).*1.
Proof.
  intros Hf Hs Hr Hall. rewrite (main_report w args s Hf Hs Hr).
  cbn [trace outcome fst snd].
  destruct (report_loop_returns (all_classifiers s)
              (test_part (get_samples w).1) (test_part (get_samples w).2) Hall)
    as (Hok & Hpred & Hdump).
  assert (Hnames : (all_classifiers s).*1
                   = "voting"%string
                       :: (VotingEnsemble.sub_classifiers
                             (voting_classifier s)).*1).
  { unfold all_classifiers, sub_classifier_items, VotingEnsemble.items.
    cbn [app fmap list_fmap fst]. f_equal.
    rewrite <- list_fmap_compose. apply list_fmap_ext.
    intros _ [name a] _. reflexivity. }
  unfold do_report. rewrite !bind_emit. cbn [trace outcome fst snd].
  rewrite Hok. split; [reflexivity|]. split.
  - rewrite <- Hnames, <- Hpred. reflexivity.
  - rewrite <- Hnames, <- Hdump. reflexivity.
Qed.

Lemma main_report_run_witness :
  predicted (trace (main (Samples.world_ok Samples.ensemble_AAB)
                      Samples.args_report))
  = ["voting"; "X"; "Y"; "Z"]%string.
Proof.
  refine (proj1 (proj2 (main_report_run (Samples.world_ok Samples.ensemble_AAB)
                          Samples.args_report
                          (mkSentiment Samples.ensemble_AAB) _ _ _ _)));
    try reflexivity.
  repeat (apply Forall_cons; split; [eexists; reflexivity|]). constructor.
Defined.

Lemma do_graphs_prefix w classifiers X y :
  ∃ tl, trace (do_graphs w classifiers X y)
        = CallGraphs classifiers X y
            :: LogPlotDimensions (ceil_div (length classifiers) 4) 4
            :: Subplots (ceil_div (length classifiers) 4) 4 :: tl.
Proof.
  unfold do_graphs. rewrite !bind_emit. cbn [trace outcome fst snd].
  rewrite trace_bind. unfold subplots at 1. rewrite bind_emit.
  cbn [trace outcome fst snd app]. eexists. reflexivity.
Qed.

(** A [--graphs] run for an ensemble of [k] sub-classifiers asks for a
    grid of [(k + 4) / 4] rows and 4 columns, which is never empty. *)
Theorem main_graphs_grid (w : World) (args : Args) (s : Sentiment) :
  features args = false →
  new_sentiment w "voting.yaml" = inr s →
  report args = false →
  graphs args = true →
  let k := length (VotingEnsemble.sub_classifiers (voting_classifier s)) in
  1 ≤ (k + 4) / 4
  ∧ Subplots ((k + 4) / 4) 4 ∈ trace (main w args)
  ∧ subplots ((k + 4) / 4) 4
    = ([Subplots ((k + 4) / 4) 4], inr (axes_grid ((k + 4) / 4) 4)).
Proof.
  intros Hf Hs Hr Hg k.
  assert (Hrows : 1 ≤ (k + 4) / 4).
  { pose proof (Nat.div_mod_eq (k + 4) 4).
    pose proof (Nat.mod_upper_bound (k + 4) 4). lia. }
  split; [exact Hrows|]. split; [|apply subplots_returns; lia].
  rewrite (main_graphs w args s Hf Hs Hr Hg). cbn [trace fst].
  destruct (do_graphs_prefix w (all_classifiers s)
              (test_part (get_samples w).1) (test_part (get_samples w).2))
    as [tl ->].
  assert (Hlen : length (all_classifiers s) = S k).
  { unfold all_classifiers, sub_classifier_items, VotingEnsemble.items.
    cbn [app length]. rewrite length_fmap. reflexivity. }
  rewrite Hlen, ceil_div_4. replace (S k + 3) with (k + 4) by lia.
  apply elem_of_app. right. right. right. left.
Qed.

Lemma main_graphs_grid_witness :
  Subplots 1 4
    ∈ trace (main (Samples.world_ok Samples.ensemble_AAB) Samples.args_graphs).
Proof.
  refine (proj1 (proj2 (main_graphs_grid (Samples.world_ok Samples.ensemble_AAB)
                          Samples.args_graphs
                          (mkSentiment Samples.ensemble_AAB) _ _ _ _)));
    reflexivity.
Defined.
End MainRuns.

(** ** A failing prediction in [do_graphs] *)

Section GraphsFailure.
Import Driver Observe.

Lemma for_each_some_stops {A} (body : A → Run unit) (l : list A) (a : A) st :
  a ∈ l → outcome (body a) = inl st →
  ∃ st', outcome (for_each body l) = inl st'.
Proof.
  intros Hin Ha. induction l as [|x l IH]; [inversion Hin|].
  cbn [for_each]. rewrite outcome_bind.
  destruct (outcome (body x)) as [st'|[]] eqn:Hx; [eauto|].
  apply IH. apply elem_of_cons in Hin as [->|Hin]; [congruence|exact Hin].
Qed.

Lemma predict_emit_raises label clf X (f : list Label → Event) e :
  classifier_predict clf X = inl e →
  (call_predict label clf X ≫= λ yp, emit (f yp))
  = ([Predict label clf X], inl (Raised e)).
Proof.
  intros Hp. unfold call_predict.
  rewrite (run_eta (_ ≫= _)), trace_bind, outcome_bind, bind_emit, Hp.
  reflexivity.
Qed.

(** When the [predict] of any classifier raises, [do_graphs] raises
    during the confusion-matrix pass: [plt.show] is never reached and no
    ROC curve is computed. *)
Theorem do_graphs_error_shows_nothing (w : World)
    (classifiers : list (string * Classifier)) (X : list FeatureVector)
    (y : list Label) (label : string) (clf : Classifier) (e : Error) :
  (label, clf) ∈ classifiers →
  classifier_predict clf X = inl e →
  (∃ e', outcome (do_graphs w classifiers X y) = inl (Raised e'))
  ∧ Forall (λ ev, ev ≠ PltShow ∧ ∀ l yt yp, ev ≠ PlotRoc l yt yp)
           (trace (do_graphs w classifiers X y)).
Proof.
  intros Hin Hclf.
  assert (Hne : classifiers ≠ []).
  { intros ->. inversion Hin. }
  pose proof (do_graphs_shape w classifiers X y Hne) as Hrun.
  cbn zeta in Hrun. destruct Hrun as [Hrun Hsnd].
  set (pass1 := confusion_pass X y
                  (graph_data
                     (axes_grid (ceil_div (length classifiers) subplots_cols)
                        subplots_cols) classifiers)) in *.
  assert (Hstop : ∃ st, outcome pass1 = inl st).
  { rewrite <- Hsnd in Hin.
    apply list_elem_of_fmap in Hin as ([ax [label' clf']] & Heq & Hp).
    cbn in Heq. injection Heq as <- <-.
    eapply (for_each_some_stops _ _ (ax, (label, clf))); [exact Hp|].
    cbn [fst snd]. rewrite (predict_emit_raises _ _ _ _ _ Hclf). reflexivity. }
  destruct Hstop as [st Hst].
  assert (Hquiet : Forall (λ ev, ev ≠ PltShow ∧ ∀ l yt yp, ev ≠ PlotRoc l yt yp)
                     (trace pass1)).
  { apply for_each_trace_Forall. intros [ax [l c]] _. cbn [fst snd].
    destruct (classifier_predict c X) as [e'|y_pred] eqn:Hc.
    - rewrite (predict_emit_raises _ _ _ _ _ Hc). repeat constructor; discriminate.
    - rewrite (predict_emit_returns _ _ _ _ _ Hc). repeat constructor; discriminate. }
  rewrite Hst in Hrun. rewrite app_nil_r in Hrun.
  rewrite Hrun. cbn [trace outcome fst snd]. split.
  - destruct st as [code|e'].
    + exfalso. eapply (do_graphs_no_sys_exit w classifiers X y code).
      rewrite Hrun. reflexivity.
    + exists e'. reflexivity.
  - repeat (apply Forall_cons; split; [split; [|intros ? ? ?]; discriminate|]).
    exact Hquiet.
Qed.

Lemma do_graphs_error_shows_nothing_witness :
  ∃ e', outcome (do_graphs (Samples.world_ok Samples.ensemble_AB)
                   [("voting"%string, Voting Samples.ensemble_AB);
                    ("X"%string,
                     Single (ClassifierAdapter.create
                               ClassifierAdapter.Bayesian []))]
                   [[true]] [positive])
        = inl (Raised e').
Proof.
  refine (proj1 (do_graphs_error_shows_nothing _ _ [[true]] [positive] "X"
                   (Single (ClassifierAdapter.create
                              ClassifierAdapter.Bayesian []))
                   NotTrainedError _ _)).
  - right. left.
  - reflexivity.
Defined.
End GraphsFailure.

(** ** [do_learning_curve] *)

Section LearningCurves.
Import Driver Observe.
Implicit Types (classifiers : list (string * Classifier))
  (X : list FeatureVector) (y : list Label).

Lemma learning_body_returns w label clf X y :
  learning_curve w clf X y = inr () →
  (emit (LearningCurve label clf X y);;
   lift (learning_curve w clf X y);;
   emit (PlotLearningCurve label))
  = ([LearningCurve label clf X y; PlotLearningCurve label], inr ()).
Proof. intros Hl. rewrite bind_emit, Hl. reflexivity. Qed.

Lemma learning_body_learned w label clf X y :
  learned (trace (emit (LearningCurve label clf X y);;
                  lift (learning_curve w clf X y);;
                  emit (PlotLearningCurve label)))
  = [(label, clf, X, y)].
Proof.
  rewrite bind_emit. destruct (learning_curve w clf X y) as [e|[]]; reflexivity.
Qed.

(** The run of [do_learning_curve]: one [learning_curve] call after the
    other, and [plt.show] when all have returned. *)
Lemma do_learning_curve_shape w classifiers X y :
  let pass :=
    for_each
      (λ p, emit (LearningCurve p.1 p.2 X y);;
            lift (learning_curve w p.2 X y);;
            emit (PlotLearningCurve p.1))
      classifiers in
  do_learning_curve w classifiers X y
  = (CallLearningCurve classifiers X y :: Subplots 1 1
       :: trace pass
       ++ match outcome pass with
          | inl _ => []
          | inr _ => [PltShow]
          end,
     match outcome pass with
     | inl st => inl st
     | inr _ => inr ()
     end).
Proof.
  intros pass. rewrite (run_eta (do_learning_curve w classifiers X y)).
  unfold do_learning_curve. fold pass. rewrite !bind_emit.
  cbn [trace outcome fst snd]. rewrite trace_bind, outcome_bind.
  destruct (outcome pass) as [st|[]]; reflexivity.
Qed.

Lemma learning_pass_prefix w classifiers X y :
  learned
    (trace (for_each
              (λ p, emit (LearningCurve p.1 p.2 X y);;
                    lift (learning_curve w p.2 X y);;
                    emit (PlotLearningCurve p.1))
              classifiers))
  `prefix_of` ((λ p, (p.1, p.2, X, y)) <$> classifiers).
Proof.
  apply (for_each_observed_prefix learning_call _ (λ p, (p.1, p.2, X, y))).
  intros p _. apply learning_body_learned.
Qed.

Lemma learning_pass_returns w classifiers X y :
  Forall (learning_returns w X y) classifiers →
  let pass :=
    for_each
      (λ p, emit (LearningCurve p.1 p.2 X y);;
            lift (learning_curve w p.2 X y);;
            emit (PlotLearningCurve p.1))
      classifiers in
  outcome pass = inr ()
  ∧ learned (trace pass) = (λ p, (p.1, p.2, X, y)) <$> classifiers.
Proof.
  intros Hall pass. subst pass. rewrite Forall_forall in Hall.
  apply (for_each_observed learning_call _ (λ p, (p.1, p.2, X, y))).
  intros p Hp. rewrite (learning_body_returns w p.1 p.2 X y (Hall p Hp)).
  split; reflexivity.
Qed.

Lemma learned_prologue t : learned (prologue ++ t) = learned t.
Proof. reflexivity. Qed.

(** C10: [--learning] hands only the named sub-classifiers, in the order
    of the mapping, to the learning-curve computation, with all the
    samples; the voting ensemble is not among them, whereas the list of
    [--report] and [--graphs] starts with it.  [learning_curve] is
    called on the handed classifiers in that order, up to the first call
    that raises. *)
Theorem learning_curve_classifiers (w : World) (args : Args) (s : Sentiment) :
  features args = false →
  new_sentiment w "voting.yaml" = inr s →
  report args = false →
  graphs args = false →
  learning args = true →
  let subs := VotingEnsemble.sub_classifiers (voting_classifier s) in
  let handed := (λ na, (na.1, Single na.2)) <$> subs in
  let X := (get_samples w).1 in
  let y := (get_samples w).2 in
  (∃ tl,
     trace (main w args) = prologue ++ CallLearningCurve handed X y :: tl
     ∧ Forall (λ e, is_call e = false ∧ is_predict e = false) tl
     ∧ learned tl `prefix_of` ((λ p, (p.1, p.2, X, y)) <$> handed))
  ∧ (Forall (learning_returns w X y) handed →
     learned (trace (main w args)) = (λ p, (p.1, p.2, X, y)) <$> handed
     ∧ outcome (main w args) = inl (SysExit 0))
  ∧ handed.*1 = subs.*1
  ∧ (∀ name clf, (name, clf) ∈ handed →
       ∃ a, clf = Single a ∧ (name, a) ∈ subs)
  ∧ (∀ name e, (name, Voting e) ∉ handed)
  ∧ all_classifiers s
    = ("voting"%string, Voting (voting_classifier s)) :: handed.
Proof.
  intros Hf Hs Hr Hg Hl subs handed X y.
  pose proof (main_learning w args s Hf Hs Hr Hg Hl) as Hmain.
  pose proof (do_learning_curve_shape w (sub_classifier_items s) X y) as Hrun.
  cbn zeta in Hrun. fold X y in Hmain. rewrite Hrun in Hmain.
  change (sub_classifier_items s) with handed in Hmain.
  cbn [trace outcome fst snd] in Hmain.
  split; [|split; [|split; [|split; [|split]]]].
  - rewrite Hmain. cbn [trace fst]. eexists. split; [reflexivity|]. split.
    + apply Forall_cons. split; [split; reflexivity|].
      apply Forall_app. split.
      * trace_forall; split; reflexivity.
      * destruct (outcome _); repeat constructor.
    + change (learned (Subplots 1 1 :: ?t)) with (learned t).
      unfold learned. rewrite omap_app.
      pose proof (learning_pass_prefix w handed X y) as Hpre.
      destruct (outcome _); cbn [omap list_omap learning_call];
        rewrite app_nil_r; exact Hpre.
  - intros Hall.
    pose proof (learning_pass_returns w handed X y Hall) as Hret.
    cbn zeta in Hret. destruct Hret as [Hok Hlearned].
    rewrite Hmain, Hok. cbn [trace outcome fst snd then_exit].
    split; [|reflexivity].
    rewrite learned_prologue.
    change (learned (CallLearningCurve handed X y :: Subplots 1 1 :: ?t))
      with (learned t).
    unfold learned in *. rewrite omap_app, Hlearned. apply app_nil_r.
  - subst handed. rewrite <- list_fmap_compose.
    apply list_fmap_ext. intros _ [name a] _. reflexivity.
  - intros name clf Hin.
    apply list_elem_of_fmap in Hin as ([name' a] & Heq & Hsub).
    injection Heq as -> ->. exists a. split; [reflexivity|exact Hsub].
  - intros name e Hin.
    apply list_elem_of_fmap in Hin as ([name' a] & Heq & _). discriminate.
  - reflexivity.
Qed.

Lemma learning_curve_classifiers_witness :
  ∃ tl,
    trace (main (Samples.world_learning_fails Samples.ensemble_AB)
             Samples.args_learning)
    = prologue
        ++ CallLearningCurve
             [("X"%string,
               Single (Samples.trained ClassifierAdapter.Bayesian positive));
              ("Y"%string,
               Single (Samples.trained ClassifierAdapter.MarginBased negative))]
             Samples.five_samples.1 Samples.five_samples.2 :: tl
    ∧ Forall (λ e, is_call e = false ∧ is_predict e = false) tl
    ∧ learned tl
      `prefix_of`
        [("X"%string,
          Single (Samples.trained ClassifierAdapter.Bayesian positive),
          Samples.five_samples.1, Samples.five_samples.2);
         ("Y"%string,
          Single (Samples.trained ClassifierAdapter.MarginBased negative),
          Samples.five_samples.1, Samples.five_samples.2)].
Proof.
  refine (proj1 (learning_curve_classifiers
                   (Samples.world_learning_fails Samples.ensemble_AB)
                   Samples.args_learning
                   (mkSentiment Samples.ensemble_AB) _ _ _ _ _));
    reflexivity.
Defined.
End LearningCurves.
